(** * Component placeholder nodes of the virtual DOM: [core/vdom/create-component.js]

    A shallow embedding of the component-node lifecycle bridge: the four
    management hooks of [componentVNodeHooks], [createComponent],
    [createComponentInstanceForVnode], [installComponentHooks], [mergeHook]
    and [transformModel].

    The JavaScript heap is an explicit store.  Placeholder nodes, data bags,
    component instances and constructor functions live at locations, and
    every write of the source is a write to that store.  Code of other
    modules (the instance lifecycle, the async resolver, the input
    extractor ...) is a parameter: a record of heap transformers.  Every
    call this file makes to one of them is logged in a trace, so that
    "which collaborator ran, with which arguments, in which order" is a
    property of the run. *)

From Stdlib Require Import ZArith String List.
From stdpp Require Import base option gmap strings list pretty.

Local Open Scope string_scope.
Local Open Scope list_scope.

(** ** Values *)

Definition loc := nat.

(** A JavaScript value as this file inspects it.  Numbers are integers (no
    NaN); objects and functions are references, compared by location. *)
Inductive val : Type :=
| VUndef
| VNull
| VBool (b : bool)
| VNum (n : Z)
| VStr (s : string)
| VObj (l : loc)      (* a plain object, e.g. a component definition *)
| VFun (l : loc)      (* a function object: constructor, factory, callback *)
| VInst (l : loc)     (* a component instance *)
| VVNode (l : loc).   (* a vnode *)

#[global] Instance val_eq_dec : EqDecision val.
Proof. solve_decision. Defined.

(** ToBoolean. *)
Definition truthy (v : val) : bool :=
  match v with
  | VUndef | VNull => false
  | VBool b => b
  | VNum n => negb (n =? 0)%Z
  | VStr s => negb (String.eqb s EmptyString)
  | _ => true
  end.

(** [a || b] on values. *)
Definition or_val (a b : val) : val := if truthy a then a else b.

(** Modelled from the spec: the predicates [isUndef], [isDef], [isTrue] and
    [isObject] are imported from [../util/index], which is not part of the
    sources at hand.  The spec names what they test: a reference that is
    "undefined", a descriptor that "is present", a constructor "marked"
    functional or abstract, a "plain definition object". *)
Definition isUndef (v : val) : bool :=
  match v with VUndef | VNull => true | _ => false end.

Definition isDef (v : val) : bool := negb (isUndef v).

Definition isTrue (v : val) : bool :=
  match v with VBool true => true | _ => false end.

Definition isObject (v : val) : bool :=
  match v with VObj _ | VInst _ | VVNode _ => true | _ => false end.

(** [typeof v === 'function'] *)
Definition is_function (v : val) : bool :=
  match v with VFun _ => true | _ => false end.

(** ** Hooks as values *)

(** The keys of [componentVNodeHooks]. *)
Inductive hook_key := Init | Prepatch | Insert | Destroy.

#[global] Instance hook_key_eq_dec : EqDecision hook_key.
Proof. solve_decision. Defined.

Definition key_name (k : hook_key) : string :=
  match k with
  | Init => "init"
  | Prepatch => "prepatch"
  | Insert => "insert"
  | Destroy => "destroy"
  end.

(** A function stored in [data.hook].  [Default k] is the member
    [componentVNodeHooks[k]]; [User id tagged] is a function that comes
    from outside this file, [id] being its identity and [tagged] the
    truthiness of its own [_merged] property; [Merged f1 f2] is the closure
    allocated by [mergeHook f1 f2].  The file compares a hook by reference
    only against a member of [componentVNodeHooks], so closures need no
    identity of their own. *)
Inductive hook_fn :=
| Default (k : hook_key)
| User (id : nat) (tagged : bool)
| Merged (f1 f2 : hook_fn).

#[global] Instance hook_fn_eq_dec : EqDecision hook_fn.
Proof. solve_decision. Defined.

(** [f._merged], as a truth value. *)
Definition _merged (f : hook_fn) : bool :=
  match f with
  | Default _ => false
  | User _ tagged => tagged
  | Merged _ _ => true
  end.

(** ** The data bag of a node *)

(** An entry of [data.on]: one function, or an array of functions. *)
Inductive listener :=
| Single (f : val)
| Multi (fs : list val).

#[global] Instance listener_eq_dec : EqDecision listener.
Proof. solve_decision. Defined.

Record Model := { value : val; callback : val }.

Record InlineTemplate := { render : val; staticRenderFns : val }.

(** [VNodeData], with the fields this file reads or writes; [rest] stands
    for every other property of the bag (key, props, class, ...).  The
    nested bags are held by value: the file never reaches one of them
    through two paths after writing it. *)
Record VNodeData := {
  attrs : option (gmap string val);
  on : option (gmap string listener);
  nativeOn : option (gmap string listener);
  hook : option (gmap string hook_fn);
  keepAlive : val;
  model : option Model;
  slot : val;
  inlineTemplate : option InlineTemplate;
  rest : gmap string val
}.

(** The object literal [{}]. *)
Definition empty_data : VNodeData :=
  {| attrs := None; on := None; nativeOn := None; hook := None;
     keepAlive := VUndef; model := None; slot := VUndef;
     inlineTemplate := None; rest := ∅ |}.

Definition set_attrs (x : option (gmap string val)) (d : VNodeData) :=
  {| attrs := x; on := on d; nativeOn := nativeOn d; hook := hook d;
     keepAlive := keepAlive d; model := model d; slot := slot d;
     inlineTemplate := inlineTemplate d; rest := rest d |}.

Definition set_on (x : option (gmap string listener)) (d : VNodeData) :=
  {| attrs := attrs d; on := x; nativeOn := nativeOn d; hook := hook d;
     keepAlive := keepAlive d; model := model d; slot := slot d;
     inlineTemplate := inlineTemplate d; rest := rest d |}.

Definition set_hook (x : option (gmap string hook_fn)) (d : VNodeData) :=
  {| attrs := attrs d; on := on d; nativeOn := nativeOn d; hook := x;
     keepAlive := keepAlive d; model := model d; slot := slot d;
     inlineTemplate := inlineTemplate d; rest := rest d |}.

Definition set_slot (x : val) (d : VNodeData) :=
  {| attrs := attrs d; on := on d; nativeOn := nativeOn d; hook := hook d;
     keepAlive := keepAlive d; model := model d; slot := x;
     inlineTemplate := inlineTemplate d; rest := rest d |}.

(** ** Constructors, instances, nodes *)

(** [Ctor.options.model] *)
Record ModelOptions := { prop : option string; event : option string }.

(** [Ctor.options], with the fields this file reads. *)
Record CtorOptions := {
  functional : val;
  abstract : val;
  name : val;
  opt_model : option ModelOptions
}.

(** A function object: its [cid] and [options] properties. *)
Record FnObj := { cid : val; options : option CtorOptions }.

(** A component instance: the two lifecycle flags and [$options._base]. *)
Record Component := {
  _isMounted : bool;
  _isDestroyed : bool;
  _base : val
}.

Definition set_isMounted (b : bool) (c : Component) :=
  {| _isMounted := b; _isDestroyed := _isDestroyed c; _base := _base c |}.

Definition set_isDestroyed (b : bool) (c : Component) :=
  {| _isMounted := _isMounted c; _isDestroyed := b; _base := _base c |}.

(** The record passed as [componentOptions] to the node. *)
Record VNodeComponentOptions := {
  Ctor : val;
  propsData : option (gmap string val);
  listeners : option (gmap string listener);
  tag : val;
  children : val
}.

(** Modelled from the spec: class [VNode] of [./vnode] is not part of the
    sources at hand.  The spec gives a placeholder node as
    [{ key, data, context, componentOptions, componentInstance?,
    asyncFactory? }], [componentInstance] starting unset.  The fields follow
    the arguments of the call [new VNode(tag, data, children, text, elm,
    context, componentOptions, asyncFactory)] in [createComponent]; [vtag]
    is the spec's "unique tag derived from constructor identity and
    declared name". *)
Record VNode := {
  vtag : val;
  data : option loc;
  vchildren : val;
  text : val;
  elm : val;
  context : option loc;
  componentOptions : option VNodeComponentOptions;
  componentInstance : option loc;
  asyncFactory : val
}.

Definition set_componentInstance (x : option loc) (v : VNode) :=
  {| vtag := vtag v; data := data v; vchildren := vchildren v;
     text := text v; elm := elm v; context := context v;
     componentOptions := componentOptions v; componentInstance := x;
     asyncFactory := asyncFactory v |}.

(** [InternalComponentOptions], built by [createComponentInstanceForVnode]. *)
Record InternalComponentOptions := {
  _isComponent : bool;
  _parentVnode : loc;
  parent : val;
  o_render : val;
  o_staticRenderFns : val
}.

(** ** The store *)

(** [world] is whatever else the collaborators keep (the activation queue,
    the state of async factories ...); [activeInstance] is the binding
    imported from [../instance/lifecycle]. *)
Record heap {World : Type} := {
  vnodes : gmap loc VNode;
  datas : gmap loc VNodeData;
  comps : gmap loc Component;
  fns : gmap loc FnObj;
  activeInstance : val;
  world : World
}.
Arguments heap : clear implicits.

Section Store.
Context {World : Type}.
Implicit Types h : heap World.

Definition with_vnodes (f : gmap loc VNode → gmap loc VNode) h : heap World :=
  {| vnodes := f (vnodes h); datas := datas h; comps := comps h;
     fns := fns h; activeInstance := activeInstance h; world := world h |}.

Definition with_datas (f : gmap loc VNodeData → gmap loc VNodeData) h : heap World :=
  {| vnodes := vnodes h; datas := f (datas h); comps := comps h;
     fns := fns h; activeInstance := activeInstance h; world := world h |}.

Definition with_comps (f : gmap loc Component → gmap loc Component) h : heap World :=
  {| vnodes := vnodes h; datas := datas h; comps := f (comps h);
     fns := fns h; activeInstance := activeInstance h; world := world h |}.

Definition with_fns (f : gmap loc FnObj → gmap loc FnObj) h : heap World :=
  {| vnodes := vnodes h; datas := datas h; comps := comps h;
     fns := f (fns h); activeInstance := activeInstance h; world := world h |}.

Definition with_world (f : World → World) h : heap World :=
  {| vnodes := vnodes h; datas := datas h; comps := comps h;
     fns := fns h; activeInstance := activeInstance h; world := f (world h) |}.
End Store.

(** ** Calls that leave this file *)

Inductive effect :=
| EvExtend (base definition : val)
| EvWarn (msg : string) (vm : loc)
| EvResolveAsync (factory base : val)
| EvAsyncPlaceholder (factory : val) (data : option loc) (context : loc)
    (children tag : val)
| EvResolveConstructorOptions (ctor : loc)
| EvExtractProps (data ctor : loc) (tag : val)
| EvFunctional (ctor : loc) (propsData : option (gmap string val))
    (data context : loc) (children : val)
| EvNewVNode (vnode : loc)
| EvRecycle (vnode : loc)
| EvNew (ctor : val) (o : InternalComponentOptions)
| EvMount (vm : loc) (el hydrating : val)
| EvUpdateChild (vm : val) (propsData : option (gmap string val))
    (listeners : option (gmap string listener)) (vnode : loc) (children : val)
| EvCallHook (vm : loc) (name : string)
| EvQueueActivated (vm : loc)
| EvActivate (vm : loc) (direct : bool)
| EvDeactivate (vm : loc) (direct : bool)
| EvDestroy (vm : loc)
| EvUserHook (id : nat) (a b : val).

(** The collaborators: everything this file imports and calls, the two
    build constants, and the conversion of a value to a string done by
    template literals.  A collaborator maps the heap to a result and a new
    heap, or throws ([None]). *)
Record Collab {World : Type} := {
  NODE_ENV : string;                                   (* process.env.NODE_ENV *)
  WEEX : bool;                                         (* __WEEX__ *)
  ToString : val → string;
  warn : string → loc → heap World → option (unit * heap World);
  extend : val → val → heap World → option (val * heap World);
  resolveAsyncComponent :
    val → val → heap World → option (option loc * heap World);
  createAsyncPlaceholder :
    val → option loc → loc → val → val → heap World → option (val * heap World);
  resolveConstructorOptions : loc → heap World → option (unit * heap World);
  extractPropsFromVNodeData :
    loc → loc → val → heap World → option (option (gmap string val) * heap World);
  createFunctionalComponent :
    loc → option (gmap string val) → loc → loc → val →
    heap World → option (val * heap World);
  isRecyclableComponent : loc → heap World → bool;
  renderRecyclableComponentTemplate : loc → heap World → option (val * heap World);
  construct : val → InternalComponentOptions → heap World → option (loc * heap World);
  vm_mount : loc → val → val → heap World → option (unit * heap World);    (* $mount *)
  vm_destroy : loc → heap World → option (unit * heap World);              (* $destroy *)
  updateChildComponent :
    val → option (gmap string val) → option (gmap string listener) → loc → val →
    heap World → option (unit * heap World);
  callHook : loc → string → heap World → option (unit * heap World);
  queueActivatedComponent : loc → heap World → option (unit * heap World);
  activateChildComponent : loc → bool → heap World → option (unit * heap World);
  deactivateChildComponent : loc → bool → heap World → option (unit * heap World);
  user_hook : nat → val → val → heap World → option (unit * heap World)
}.
Arguments Collab : clear implicits.

(** ** The monad of the embedding: state, trace, exceptions *)

Definition state (World : Type) : Type := heap World * list effect.

Definition M (World A : Type) : Type := state World → option (A * state World).

#[global] Instance M_ret {World} : MRet (M World) :=
  λ A (a : A) s, Some (a, s).

#[global] Instance M_bind {World} : MBind (M World) :=
  λ A B (k : A → M World B) (m : M World A) s,
    match m s with
    | Some (a, s') => k a s'
    | None => None
    end.

Section Monad.
Context {World : Type}.

(** A TypeError, or any exception: nothing in this file catches one. *)
Definition throw {A} : M World A := λ _, None.

Definition gets {A} (f : heap World → A) : M World A :=
  λ s, Some (f s.1, s).

Definition modify (f : heap World → heap World) : M World unit :=
  λ s, Some (tt, (f s.1, s.2)).

(** Reading through a reference that is [undefined]. *)
Definition must {A} (o : option A) : M World A :=
  match o with Some a => mret a | None => throw end.

(** A call to a collaborator, logged. *)
Definition ext {A} (e : effect) (f : heap World → option (A * heap World)) : M World A :=
  λ s, match f s.1 with
       | Some (a, h') => Some (a, (h', s.2 ++ [e]))
       | None => None
       end.

Definition emit (e : effect) : M World unit :=
  λ s, Some (tt, (s.1, s.2 ++ [e])).

Definition get_vnode (l : loc) : M World VNode :=
  h ← gets vnodes; must (h !! l).

Definition get_data (l : loc) : M World VNodeData :=
  h ← gets datas; must (h !! l).

Definition get_comp (l : loc) : M World Component :=
  h ← gets comps; must (h !! l).

(** The properties of a function object; a function the store does not
    list has none. *)
Definition fn_props (h : heap World) (l : loc) : FnObj :=
  default {| cid := VUndef; options := None |} (fns h !! l).

Definition get_fn (l : loc) : M World FnObj :=
  h ← gets (λ h, h); mret (fn_props h l).

(** [vnode.data], then the bag it refers to. *)
Definition get_vnode_data (vnode : loc) : M World VNodeData :=
  v ← get_vnode vnode; d ← must (data v); get_data d.

Definition update_vnode (l : loc) (f : VNode → VNode) : M World unit :=
  modify (with_vnodes (alter f l)).

Definition update_data (l : loc) (f : VNodeData → VNodeData) : M World unit :=
  modify (with_datas (alter f l)).

Definition update_comp (l : loc) (f : Component → Component) : M World unit :=
  modify (with_comps (alter f l)).

(** A fresh object literal. *)
Definition alloc_data (d : VNodeData) : M World loc :=
  h ← gets datas;
  let l := fresh (dom h) in
  modify (with_datas (<[l := d]>));; mret l.
End Monad.

(** ** The source, function by function *)

Section Instance.
Context {World : Type} (C : Collab World).

(** Modelled from the spec: the constructor of class [VNode] ([./vnode],
    not part of the sources at hand) allocates a node holding its
    arguments, with no instance yet. *)
Definition new_VNode (tag : val) (data : option loc) (children text elm : val)
    (context : option loc) (componentOptions : option VNodeComponentOptions)
    (asyncFactory : val) : M World loc :=
  h ← gets vnodes;
  let l := fresh (dom h) in
  modify (with_vnodes (<[l :=
    {| vtag := tag; data := data; vchildren := children; text := text;
       elm := elm; context := context; componentOptions := componentOptions;
       componentInstance := None; asyncFactory := asyncFactory |}]>));;
  emit (EvNewVNode l);;
  mret l.

(** [createComponentInstanceForVnode], lines 293-319. *)
Definition createComponentInstanceForVnode (vnode : loc) (parent : val) : M World loc :=
  d ← get_vnode_data vnode;
  let options :=
    match inlineTemplate d with
    | Some t =>
        {| _isComponent := true; _parentVnode := vnode; parent := parent;
           o_render := render t; o_staticRenderFns := staticRenderFns t |}
    | None =>
        {| _isComponent := true; _parentVnode := vnode; parent := parent;
           o_render := VUndef; o_staticRenderFns := VUndef |}
    end in
  v ← get_vnode vnode;
  co ← must (componentOptions v);
  ext (EvNew (Ctor co) options) (construct C (Ctor co) options).
End Instance.

(** [componentVNodeHooks], lines 42-131: the hooks invoked on component
    nodes during patch. *)
Module componentVNodeHooks.
Section Hooks.
Context {World : Type} (C : Collab World).

(** Lines 75-89.  [options] is read before the instance moves over; the
    instance passed on is whatever the old node held. *)
Definition prepatch (oldVnode vnode : loc) : M World unit :=
  v ← get_vnode vnode;
  let options := componentOptions v in
  o ← get_vnode oldVnode;
  let child := componentInstance o in
  update_vnode vnode (set_componentInstance child);;
  options ← must options;
  let child := from_option VInst VUndef child in
  ext (EvUpdateChild child (propsData options) (listeners options) vnode
         (children options))
      (updateChildComponent C child (propsData options) (listeners options)
         vnode (children options)).

(** Lines 43-73. *)
Definition init (vnode : loc) (hydrating : val) : M World unit :=
  v ← get_vnode vnode;
  keptAlive ←
    match componentInstance v with
    | None => mret false
    | Some i =>
        c ← get_comp i;
        if _isDestroyed c then mret false
        else d ← get_vnode_data vnode; mret (truthy (keepAlive d))
    end;
  if keptAlive : bool then
    prepatch vnode vnode
  else
    parent ← gets activeInstance;
    child ← createComponentInstanceForVnode C vnode parent;
    update_vnode vnode (set_componentInstance (Some child));;
    v ← get_vnode vnode;
    let el := if truthy hydrating then elm v else VUndef in
    ext (EvMount child el hydrating) (vm_mount C child el hydrating).

(** Lines 91-119. *)
Definition insert (vnode : loc) : M World unit :=
  v ← get_vnode vnode;
  let context := context v in
  componentInstance ← must (componentInstance v);
  c ← get_comp componentInstance;
  (if negb (_isMounted c) then
     update_comp componentInstance (set_isMounted true);;
     ext (EvCallHook componentInstance "mounted")
         (callHook C componentInstance "mounted")
   else mret tt);;
  d ← get_vnode_data vnode;
  if truthy (keepAlive d) then
    context ← must context;
    cc ← get_comp context;
    if _isMounted cc then
      ext (EvQueueActivated componentInstance)
          (queueActivatedComponent C componentInstance)
    else
      ext (EvActivate componentInstance true)
          (activateChildComponent C componentInstance true)
  else mret tt.

(** Lines 121-130. *)
Definition destroy (vnode : loc) : M World unit :=
  v ← get_vnode vnode;
  componentInstance ← must (componentInstance v);
  c ← get_comp componentInstance;
  if negb (_isDestroyed c) then
    d ← get_vnode_data vnode;
    if negb (truthy (keepAlive d)) then
      ext (EvDestroy componentInstance) (vm_destroy C componentInstance)
    else
      ext (EvDeactivate componentInstance true)
          (deactivateChildComponent C componentInstance true)
  else mret tt.
End Hooks.
End componentVNodeHooks.

(** [Object.keys(componentVNodeHooks)], line 133. *)
Definition hooksToMerge : list hook_key := [Init; Prepatch; Insert; Destroy].

(** [mergeHook], lines 350-359: the closure is tagged on creation (see
    [_merged]); its body is the [Merged] case of [invoke]. *)
Definition mergeHook (f1 f2 : hook_fn) : hook_fn := Merged f1 f2.

(** One turn of the loop of [installComponentHooks], lines 330-340, on the
    object [hooks]. *)
Definition install_step (hooks : gmap string hook_fn) (key : hook_key) :
    gmap string hook_fn :=
  let existing := hooks !! key_name key in
  let toMerge := Default key in
  if bool_decide (existing ≠ Some toMerge)
     && negb (from_option _merged false existing)
  then
    <[key_name key :=
        match existing with
        | Some existing => mergeHook toMerge existing
        | None => toMerge
        end]> hooks
  else hooks.

(** [isDef] on an entry of [data.on]. *)
Definition listener_isDef (e : listener) : bool :=
  match e with Single f => isDef f | Multi _ => true end.

(** [(options.model && options.model.x) || dflt] *)
Definition model_name (x : option string) (dflt : string) : string :=
  match x with
  | Some s => if String.eqb s EmptyString then dflt else s
  | None => dflt
  end.

Section Builder.
Context {World : Type} (C : Collab World).

(** Calling a member of [componentVNodeHooks] with two arguments.  A
    value that is no node has none of a node's properties: reading one
    gives [undefined], and throws on [undefined] and [null].  So [init]
    (line 308, [vnode.data.inlineTemplate]), [insert] (line 93) and
    [destroy] (line 123) throw on such a first argument, and [prepatch]
    throws on such a second argument (lines 77-84, [options.propsData]
    at the latest).  For its first argument [prepatch] only reads
    [oldVnode.componentInstance] (line 80): on a value that is no node,
    and neither [undefined] nor [null], the instance it moves over and
    passes on is [undefined]. *)
Definition call_default (k : hook_key) (a b : val) : M World unit :=
  match k, a, b with
  | Init, VVNode vnode, hydrating => componentVNodeHooks.init C vnode hydrating
  | Prepatch, VVNode oldVnode, VVNode vnode =>
      componentVNodeHooks.prepatch C oldVnode vnode
  | Prepatch, oldVnode, VVNode vnode =>
      if isUndef oldVnode then throw
      else
        v ← get_vnode vnode;
        let options := componentOptions v in
        update_vnode vnode (set_componentInstance None);;
        options ← must options;
        ext (EvUpdateChild VUndef (propsData options) (listeners options) vnode
               (children options))
            (updateChildComponent C VUndef (propsData options) (listeners options)
               vnode (children options))
  | Insert, VVNode vnode, _ => componentVNodeHooks.insert C vnode
  | Destroy, VVNode vnode, _ => componentVNodeHooks.destroy C vnode
  | _, _, _ => throw
  end.

(** Calling a hook [f(a, b)]; the [Merged] case is the body of the closure
    of [mergeHook], lines 352-356. *)
Fixpoint invoke (f : hook_fn) (a b : val) : M World unit :=
  match f with
  | Default k => call_default k a b
  | User id _ => ext (EvUserHook id a b) (user_hook C id a b)
  | Merged f1 f2 => invoke f1 a b;; invoke f2 a b
  end.

(** [installComponentHooks], lines 326-342.  A bag holds its hook object
    by value: the entries written are those of the bag's own [hook], and
    a second bag referring to the same object is not described. *)
Definition installComponentHooks (data : loc) : M World unit :=
  d ← get_data data;
  let hooks := default ∅ (hook d) in
  update_data data (set_hook (Some (foldl install_step hooks hooksToMerge))).

(** [transformModel], lines 363-381.  A bag holds [attrs], [on] and
    [nativeOn] by value: the entries written are those of the bag's own
    [attrs] and [on], and an object referred to twice is not
    described. *)
Definition transformModel (options : option CtorOptions) (data : loc) :
    M World unit :=
  options ← must options;
  let prop := model_name (opt_model options ≫= prop) "value" in
  let event := model_name (opt_model options ≫= event) "input" in
  d ← get_data data;
  m ← must (model d);
  let attrs := <[prop := value m]> (default ∅ (attrs d)) in
  let on := default ∅ (on d) in
  let existing := on !! event in
  let callback := callback m in
  let on :=
    match existing with
    | Some existing =>
        if listener_isDef existing then
          if match existing with
             | Multi fs => bool_decide (callback ∉ fs)
             | Single f => bool_decide (f ≠ callback)
             end
          then
            <[event := Multi (callback ::
                                match existing with
                                | Multi fs => fs
                                | Single f => [f]
                                end)]> on
          else on
        else <[event := Single callback]> on
    | None => <[event := Single callback]> on
    end in
  update_data data (λ d, set_on (Some on) (set_attrs (Some attrs) d)).

(** [createComponent], lines 230-284: from the separation of the
    listeners to the node. *)
Definition createComponent_node (Ctor : loc)
    (propsData : option (gmap string val)) (asyncFactory : val)
    (data context : loc) (children tag : val) : M World val :=
  d ← get_data data;
  let listeners := on d in
  update_data data (λ d, set_on (nativeOn d) d);;
  fo ← get_fn Ctor;
  o ← must (options fo);
  data ←
    (if isTrue (abstract o) then
       d ← get_data data;
       let slot := slot d in
       data ← alloc_data empty_data;
       (if truthy slot then update_data data (set_slot slot) else mret tt);;
       mret data
     else mret data);
  installComponentHooks data;;
  fo ← get_fn Ctor;
  o ← must (options fo);
  let name := or_val (name o) tag in
  vnode ←
    new_VNode
      (VStr ("vue-component-" +:+ ToString C (cid fo) +:+
             (if truthy name then "-" +:+ ToString C name else EmptyString)))
      (Some data) VUndef VUndef VUndef (Some context)
      (Some {| Ctor := VFun Ctor; propsData := propsData;
               listeners := listeners; tag := tag; children := children |})
      asyncFactory;
  if WEEX C then
    recyclable ← gets (isRecyclableComponent C vnode);
    if recyclable : bool then
      ext (EvRecycle vnode) (renderRecyclableComponentTemplate C vnode)
    else mret (VVNode vnode)
  else mret (VVNode vnode).

(** [createComponent], lines 206-228: the path shared by constructors and
    resolved async factories, up to the functional branch. *)
Definition createComponent_normal (Ctor : loc) (asyncFactory : val)
    (data : option loc) (context : loc) (children tag : val) : M World val :=
  data ←
    match data with
    | Some data => mret data
    | None => alloc_data empty_data
    end;
  ext (EvResolveConstructorOptions Ctor) (resolveConstructorOptions C Ctor);;
  d ← get_data data;
  match model d with
  | Some _ => fo ← get_fn Ctor; transformModel (options fo) data
  | None => mret tt
  end;;
  propsData ←
    ext (EvExtractProps data Ctor tag) (extractPropsFromVNodeData C data Ctor tag);
  fo ← get_fn Ctor;
  o ← must (options fo);
  if isTrue (functional o) then
    ext (EvFunctional Ctor propsData data context children)
        (createFunctionalComponent C Ctor propsData data context children)
  else
    createComponent_node Ctor propsData asyncFactory data context children tag.

(** [createComponent], lines 144-204: the resolution of the reference,
    then the normal path. *)
Definition createComponent (Ctor : val) (data : option loc) (context : loc)
    (children tag : val) : M World val :=
  if isUndef Ctor then mret VUndef
  else
    vm ← get_comp context;
    let baseCtor := _base vm in
    Ctor ←
      (if isObject Ctor then ext (EvExtend baseCtor Ctor) (extend C baseCtor Ctor)
       else mret Ctor);
    match Ctor with
    | VFun f =>
        fo ← get_fn f;
        if isUndef (cid fo) then
          let asyncFactory := Ctor in
          resolved ←
            ext (EvResolveAsync asyncFactory baseCtor)
                (resolveAsyncComponent C asyncFactory baseCtor);
          match resolved with
          | None =>
              ext (EvAsyncPlaceholder asyncFactory data context children tag)
                  (createAsyncPlaceholder C asyncFactory data context children tag)
          | Some Ctor =>
              createComponent_normal Ctor asyncFactory data context children tag
          end
        else createComponent_normal f VUndef data context children tag
    | _ =>
        let msg := "Invalid Component definition: " +:+ ToString C Ctor in
        (if bool_decide (NODE_ENV C ≠ "production") then
           ext (EvWarn msg context) (warn C msg context)
         else mret tt);;
        mret VUndef
    end.
End Builder.

(** ** What the statements speak about *)

(** What [install_step] leaves under its key. *)
Definition installed (k : hook_key) (existing : option hook_fn) : hook_fn :=
  match existing with
  | None => Default k
  | Some e =>
      if bool_decide (e ≠ Default k) && negb (_merged e)
      then Merged (Default k) e else e
  end.

Section Contracts.
Context {World : Type}.
Implicit Types h : heap World.

(** The node [vnode] holds the instance [i]. *)
Definition holds_instance h (vnode i : loc) : Prop :=
  ∃ v, vnodes h !! vnode = Some v ∧ componentInstance v = Some i.

(** ... in keep-alive mode, the instance not being destroyed. *)
Definition kept_alive h (vnode i : loc) : Prop :=
  ∃ v dl d c,
    vnodes h !! vnode = Some v ∧ componentInstance v = Some i ∧
    data v = Some dl ∧ datas h !! dl = Some d ∧
    truthy (keepAlive d) = true ∧
    comps h !! i = Some c ∧ _isDestroyed c = false.

Definition mounted h (i : loc) (b : bool) : Prop :=
  ∃ c, comps h !! i = Some c ∧ _isMounted c = b.

Definition destroyed h (i : loc) (b : bool) : Prop :=
  ∃ c, comps h !! i = Some c ∧ _isDestroyed c = b.

(** Contracts a collaborator may be held to: it leaves the
    [_isDestroyed] flag, the [_isMounted] flag, or the instance slot of
    the nodes, as it found them. *)
Definition keeps_destroyed_flag {A} (f : heap World → option (A * heap World)) : Prop :=
  ∀ h a h' j b, f h = Some (a, h') → destroyed h j b → destroyed h' j b.

Definition keeps_mounted_flag {A} (f : heap World → option (A * heap World)) : Prop :=
  ∀ h a h' j b, f h = Some (a, h') → mounted h j b → mounted h' j b.

Definition keeps_instances {A} (f : heap World → option (A * heap World)) : Prop :=
  ∀ h a h' n,
    f h = Some (a, h') →
    componentInstance <$> vnodes h' !! n = componentInstance <$> vnodes h !! n.

(** A warning among the calls [es]. *)
Definition reports_warning (es : list effect) : Prop :=
  ∃ msg vm, EvWarn msg vm ∈ es.

(** No lifecycle notification among the calls [es]. *)
Definition no_callHook (es : list effect) : Prop :=
  ∀ vm name, EvCallHook vm name ∉ es.
End Contracts.

(** The bag [createComponent] leaves on the node it builds, for a
    constructor with options [O] and a bag that was [D] when the listeners
    were taken out. *)
Definition node_bag (O : CtorOptions) (D : VNodeData) : VNodeData :=
  if isTrue (abstract O) then
    set_hook (Some (foldl install_step ∅ hooksToMerge))
      (if truthy (slot D) then set_slot (slot D) empty_data else empty_data)
  else
    set_hook (Some (foldl install_step (default ∅ (hook D)) hooksToMerge))
      (set_on (nativeOn D) D).

(** The listener entry the spec asks of the binding transform: "If a
    listener already exists under that event name, the new callback is
    prepended to a list alongside the existing one(s), with
    duplicate-callback suppression (identical callback reference is not
    added twice); single non-array existing entries are promoted to a
    list."  An entry that holds [undefined] or [null] is no listener:
    there, as under a free name, the callback is registered alone. *)
Definition spec_binding_entry (existing : option listener) (callback : val) :
    listener :=
  match existing with
  | None => Single callback
  | Some (Single g) =>
      if isDef g then
        if decide (g = callback) then Single g else Multi [callback; g]
      else Single callback
  | Some (Multi gs) =>
      if decide (callback ∈ gs) then Multi gs else Multi (callback :: gs)
  end.

Section Frames.
Context {World : Type} (C : Collab World).

(** A run that leaves the [_isMounted] flag of every instance as it
    found it. *)
Definition preserves_mounted {A} (m : M World A) : Prop :=
  ∀ s a s' j b, m s = Some (a, s') → mounted s.1 j b → mounted s'.1 j b.

(** A run that makes no call of [callHook]. *)
Definition fires_no_hook {A} (m : M World A) : Prop :=
  ∀ s a s', m s = Some (a, s') → ∃ es, s'.2 = s.2 ++ es ∧ no_callHook es.

(** The collaborators the four hooks call never write [_isMounted]: the
    spec's invariant that the flag is set "only inside insert". *)
Record lifecycle_keeps_mounted : Prop := {
  km_callHook : ∀ vm name, keeps_mounted_flag (callHook C vm name);
  km_queue : ∀ vm, keeps_mounted_flag (queueActivatedComponent C vm);
  km_activate : ∀ vm direct, keeps_mounted_flag (activateChildComponent C vm direct);
  km_deactivate : ∀ vm direct, keeps_mounted_flag (deactivateChildComponent C vm direct);
  km_destroy : ∀ vm, keeps_mounted_flag (vm_destroy C vm);
  km_update : ∀ vm props ls vnode ch,
    keeps_mounted_flag (updateChildComponent C vm props ls vnode ch);
  km_construct : ∀ ctor o, keeps_mounted_flag (construct C ctor o);
  km_mount : ∀ vm el hydrating, keeps_mounted_flag (vm_mount C vm el hydrating)
}.

(** What is asked of the input extractor for a constructor [c] that
    declares the input [x]: called on the bag [d] it returns, carries
    [attrs[x]] into the inputs, and leaves the listeners of the bag and
    the constructors alone. *)
Record extractor_contract (d c : loc) (tag : val) (x : string) : Prop := {
  ex_total : ∀ h, is_Some (extractPropsFromVNodeData C d c tag h);
  ex_input : ∀ h props h' D a,
    extractPropsFromVNodeData C d c tag h = Some (props, h') →
    datas h !! d = Some D → attrs D = Some a →
    props ≫= (.!! x) = a !! x;
  ex_on : ∀ h props h',
    extractPropsFromVNodeData C d c tag h = Some (props, h') →
    on <$> datas h' !! d = on <$> datas h !! d;
  ex_fns : ∀ h props h',
    extractPropsFromVNodeData C d c tag h = Some (props, h') →
    fns h' = fns h
}.
End Frames.

(** ** A concrete set of collaborators

    Small stand-ins with the shape of the real ones, used to run the
    embedding on concrete heaps. *)

Record DemoWorld := {
  queue : list loc;                 (* the activation queue *)
  resolved : gmap loc loc           (* async factories already resolved *)
}.

Definition demo_ToString (v : val) : string :=
  match v with
  | VUndef => "undefined"
  | VNull => "null"
  | VBool true => "true"
  | VBool false => "false"
  | VNum n => pretty n
  | VStr s => s
  | VFun _ => "function () { [native code] }"
  | _ => "[object Object]"
  end.

Definition plain_options : CtorOptions :=
  {| functional := VUndef; abstract := VUndef; name := VUndef; opt_model := None |}.

Definition demo (env : string) : Collab DemoWorld :=
  {| NODE_ENV := env;
     WEEX := false;
     ToString := demo_ToString;
     warn := λ _ _ h, Some (tt, h);
     extend := λ _ _ h,
       let l := fresh (dom (fns h)) in
       Some (VFun l,
             with_fns (<[l := {| cid := VNum (Z.of_nat l);
                                 options := Some plain_options |}]>) h);
     resolveAsyncComponent := λ factory _ h,
       match factory with
       | VFun f => Some (resolved (world h) !! f, h)
       | _ => None
       end;
     createAsyncPlaceholder := λ factory data context _ _ h,
       let l := fresh (dom (vnodes h)) in
       Some (VVNode l,
             with_vnodes (<[l :=
               {| vtag := VUndef; data := data; vchildren := VUndef;
                  text := VStr EmptyString; elm := VUndef; context := Some context;
                  componentOptions := None; componentInstance := None;
                  asyncFactory := factory |}]>) h);
     resolveConstructorOptions := λ _ h, Some (tt, h);
     extractPropsFromVNodeData := λ data _ _ h,
       Some (Some (default ∅ (datas h !! data ≫= attrs)), h);
     createFunctionalComponent := λ _ _ _ _ _ h, Some (VUndef, h);
     isRecyclableComponent := λ _ _, false;
     renderRecyclableComponentTemplate := λ _ h, Some (VUndef, h);
     construct := λ _ _ h,
       let l := fresh (dom (comps h)) in
       Some (l, with_comps (<[l := {| _isMounted := false; _isDestroyed := false;
                                      _base := VUndef |}]>) h);
     vm_mount := λ _ _ _ h, Some (tt, h);
     vm_destroy := λ vm h, Some (tt, with_comps (alter (set_isDestroyed true) vm) h);
     updateChildComponent := λ _ _ _ _ _ h, Some (tt, h);
     callHook := λ _ _ h, Some (tt, h);
     queueActivatedComponent := λ vm h,
       Some (tt, with_world (λ w, {| queue := queue w ++ [vm];
                                     resolved := resolved w |}) h);
     activateChildComponent := λ _ _ h, Some (tt, h);
     deactivateChildComponent := λ _ _ h, Some (tt, h);
     user_hook := λ _ _ _ h, Some (tt, h) |}.

(** A heap to run on: the root instance [0], mounted, whose base
    constructor is the function [0]. *)
Definition demo_heap : heap DemoWorld :=
  {| vnodes := ∅;
     datas := ∅;
     comps := {[ 0 := {| _isMounted := true; _isDestroyed := false;
                         _base := VFun 0 |} ]};
     fns := {[ 0 := {| cid := VNum 0; options := Some plain_options |} ]};
     activeInstance := VInst 0;
     world := {| queue := []; resolved := ∅ |} |}.

(** The state a run leaves, when it returns. *)
Definition after {World A} (m : M World A) (s : state World) : state World :=
  match m s with Some (_, s') => s' | None => s end.

(** A child component: the constructor [1], the instance [1] created for
    the node [10], which is in keep-alive mode; [11] is the node of the
    next render for the same occurrence. *)
Definition child_options : VNodeComponentOptions :=
  {| Ctor := VFun 1; propsData := None; listeners := None;
     tag := VStr "child"; children := VUndef |}.

Definition demo_child_heap : heap DemoWorld :=
  {| vnodes :=
       {[ 10 := {| vtag := VStr "vue-component-1-child"; data := Some 20;
                   vchildren := VUndef; text := VUndef; elm := VUndef;
                   context := Some 0; componentOptions := Some child_options;
                   componentInstance := Some 1; asyncFactory := VUndef |};
          11 := {| vtag := VStr "vue-component-1-child"; data := Some 20;
                   vchildren := VUndef; text := VUndef; elm := VUndef;
                   context := Some 0; componentOptions := Some child_options;
                   componentInstance := None; asyncFactory := VUndef |} ]};
     datas :=
       {[ 20 := {| attrs := None; on := None; nativeOn := None; hook := None;
                   keepAlive := VBool true; model := None; slot := VUndef;
                   inlineTemplate := None; rest := ∅ |} ]};
     comps :=
       {[ 0 := {| _isMounted := true; _isDestroyed := false; _base := VFun 0 |};
          1 := {| _isMounted := false; _isDestroyed := false; _base := VFun 0 |} ]};
     fns :=
       {[ 0 := {| cid := VNum 0; options := Some plain_options |};
          1 := {| cid := VNum 1; options := Some plain_options |} ]};
     activeInstance := VInst 0;
     world := {| queue := []; resolved := ∅ |} |}.


(** An abstract constructor [3], used with a bag that has a custom
    listener, a native listener, a slot marker and an attribute. *)
Definition demo_abstract_heap : heap DemoWorld :=
  {| vnodes := ∅;
     datas :=
       {[ 20 := {| attrs := Some {[ "id" := VStr "x" ]};
                   on := Some {[ "click" := Single (VFun 7) ]};
                   nativeOn := Some {[ "focus" := Single (VFun 8) ]};
                   hook := None; keepAlive := VUndef; model := None;
                   slot := VStr "default"; inlineTemplate := None; rest := ∅ |} ]};
     comps :=
       {[ 0 := {| _isMounted := true; _isDestroyed := false; _base := VFun 0 |} ]};
     fns :=
       {[ 0 := {| cid := VNum 0; options := Some plain_options |};
          3 := {| cid := VNum 3;
                  options := Some {| functional := VUndef; abstract := VBool true;
                                     name := VStr "keep-alive";
                                     opt_model := None |} |} ]};
     activeInstance := VInst 0;
     world := {| queue := []; resolved := ∅ |} |}.

(** A bag with [model = {value: 5, callback: fn}], [fn] being the function
    [7], and the listener [existing] under ["input"]. *)
Definition demo_model_heap (existing : option listener) : heap DemoWorld :=
  {| vnodes := ∅;
     datas :=
       {[ 20 := {| attrs := None;
                   on := (λ e, {[ "input" := e ]}) <$> existing;
                   nativeOn := None; hook := None; keepAlive := VUndef;
                   model := Some {| value := VNum 5; callback := VFun 7 |};
                   slot := VUndef; inlineTemplate := None; rest := ∅ |} ]};
     comps :=
       {[ 0 := {| _isMounted := true; _isDestroyed := false; _base := VFun 0 |} ]};
     fns :=
       {[ 0 := {| cid := VNum 0; options := Some plain_options |};
          1 := {| cid := VNum 1; options := Some plain_options |} ]};
     activeInstance := VInst 0;
     world := {| queue := []; resolved := ∅ |} |}.

(** ** Further notions for the properties of the code *)

(** The functions registered by an entry of [data.on]. *)
Definition listener_fns (e : listener) : list val :=
  match e with Single f => [f] | Multi fs => fs end.

(** The [on] object as [transformModel] leaves it (lines 368-380), for
    the object [on] it found, the event name and the callback. *)
Definition bind_listener (callback : val) (event : string)
    (on : gmap string listener) : gmap string listener :=
  match on !! event with
  | Some existing =>
      if listener_isDef existing then
        if match existing with
           | Multi fs => bool_decide (callback ∉ fs)
           | Single f => bool_decide (f ≠ callback)
           end
        then <[event := Multi (callback :: listener_fns existing)]> on
        else on
      else <[event := Single callback]> on
  | None => <[event := Single callback]> on
  end.

(** The functions a hook ends up calling: the leaves of its merges, from
    left to right. *)
Fixpoint leaves (f : hook_fn) : list hook_fn :=
  match f with
  | Merged f1 f2 => leaves f1 ++ leaves f2
  | _ => [f]
  end.

(** Calls that reach a component instance, and calls made while a node is
    built. *)
Definition lifecycle_effect (e : effect) : bool :=
  match e with
  | EvNew _ _ | EvMount _ _ _ | EvUpdateChild _ _ _ _ _ | EvCallHook _ _
  | EvQueueActivated _ | EvActivate _ _ | EvDeactivate _ _ | EvDestroy _ => true
  | _ => false
  end.

Definition user_effect (e : effect) : bool :=
  match e with EvUserHook _ _ _ => true | _ => false end.

Definition builder_effect (e : effect) : bool :=
  match e with
  | EvExtend _ _ | EvWarn _ _ | EvResolveAsync _ _ | EvAsyncPlaceholder _ _ _ _ _
  | EvResolveConstructorOptions _ | EvExtractProps _ _ _ | EvFunctional _ _ _ _ _
  | EvNewVNode _ | EvRecycle _ => true
  | _ => false
  end.

Section Further.
Context {World : Type} (C : Collab World).

(** Calling the hooks [fs] one after the other with the same arguments. *)
Definition invoke_all (fs : list hook_fn) (a b : val) : M World unit :=
  foldr (λ f k, invoke C f a b;; k) (mret tt) fs.

(** A run whose calls all satisfy [P]. *)
Definition emits {A} (P : effect → bool) (m : M World A) : Prop :=
  ∀ s a s', m s = Some (a, s') → ∃ es, s'.2 = s.2 ++ es ∧ Forall (λ e, P e = true) es.

(** The node [vnode] holds no instance that [init] would reuse: none at
    all, a destroyed one, or one outside keep-alive mode. *)
Definition not_reusable (h : heap World) (vnode : loc) : Prop :=
  ∃ v dl d,
    vnodes h !! vnode = Some v ∧ data v = Some dl ∧ datas h !! dl = Some d ∧
    match componentInstance v with
    | None => True
    | Some i =>
        ∃ c, comps h !! i = Some c
             ∧ (_isDestroyed c = true ∨ truthy (keepAlive d) = false)
    end.
End Further.

(** The collaborators of [demo], built for Weex: every component is
    recyclable, and the template renderer answers with a marker. *)
Definition demo_weex : Collab DemoWorld :=
  let C := demo "development" in
  {| NODE_ENV := NODE_ENV C;
     WEEX := true;
     ToString := ToString C;
     warn := warn C;
     extend := extend C;
     resolveAsyncComponent := resolveAsyncComponent C;
     createAsyncPlaceholder := createAsyncPlaceholder C;
     resolveConstructorOptions := resolveConstructorOptions C;
     extractPropsFromVNodeData := extractPropsFromVNodeData C;
     createFunctionalComponent := createFunctionalComponent C;
     isRecyclableComponent := λ _ _, true;
     renderRecyclableComponentTemplate := λ _ h, Some (VStr "recycled", h);
     construct := construct C;
     vm_mount := vm_mount C;
     vm_destroy := vm_destroy C;
     updateChildComponent := updateChildComponent C;
     callHook := callHook C;
     queueActivatedComponent := queueActivatedComponent C;
     activateChildComponent := activateChildComponent C;
     deactivateChildComponent := deactivateChildComponent C;
     user_hook := user_hook C |}.

(** * Properties *)

(** ** Running the monad *)

Section Runs.
Context {World : Type}.
Implicit Types (s : state World) (h : heap World).

Lemma run_bind {A B} (m : M World A) (k : A → M World B) s :
  (m ≫= k) s = match m s with Some (a, s') => k a s' | None => None end.
Proof. reflexivity. Qed.

Lemma run_bind_Some {A B} (m : M World A) (k : A → M World B) s a s' :
  m s = Some (a, s') → (m ≫= k) s = k a s'.
Proof. intros Hm. rewrite run_bind, Hm. reflexivity. Qed.

Lemma bind_inv {A B} (m : M World A) (k : A → M World B) s r :
  (m ≫= k) s = Some r → ∃ a s', m s = Some (a, s') ∧ k a s' = Some r.
Proof.
  rewrite run_bind. destruct (m s) as [[a s']|] eqn:Hm; [|discriminate].
  intros Hk. exists a, s'. split; [reflexivity | exact Hk].
Qed.

Lemma run_get_vnode l h t v :
  vnodes h !! l = Some v → get_vnode l (h, t) = Some (v, (h, t)).
Proof. intros Hv. unfold get_vnode. rewrite run_bind. simpl. rewrite Hv. reflexivity. Qed.

Lemma run_get_data l h t d :
  datas h !! l = Some d → get_data l (h, t) = Some (d, (h, t)).
Proof. intros Hd. unfold get_data. rewrite run_bind. simpl. rewrite Hd. reflexivity. Qed.

Lemma run_get_comp l h t c :
  comps h !! l = Some c → get_comp l (h, t) = Some (c, (h, t)).
Proof. intros Hc. unfold get_comp. rewrite run_bind. simpl. rewrite Hc. reflexivity. Qed.

Lemma run_get_vnode_data vnode h t v dl d :
  vnodes h !! vnode = Some v → data v = Some dl → datas h !! dl = Some d →
  get_vnode_data vnode (h, t) = Some (d, (h, t)).
Proof.
  intros Hv Hdl Hd. unfold get_vnode_data.
  rewrite (run_bind_Some _ _ _ _ _ (run_get_vnode _ _ _ _ Hv)).
  rewrite Hdl. simpl. rewrite run_bind. simpl.
  apply run_get_data, Hd.
Qed.

Lemma run_ext {A} e (f : heap World → option (A * heap World)) h t a h' :
  f h = Some (a, h') → ext e f (h, t) = Some (a, (h', t ++ [e])).
Proof. intros Hf. unfold ext. simpl. rewrite Hf. reflexivity. Qed.

Lemma ext_inv {A} e (f : heap World → option (A * heap World)) s a s' :
  ext e f s = Some (a, s') →
  f s.1 = Some (a, s'.1) ∧ s'.2 = s.2 ++ [e].
Proof.
  unfold ext. destruct (f s.1) as [[a' h']|]; [|discriminate].
  intros [= <- <-]. split; reflexivity.
Qed.
End Runs.

(** ** The hook set *)

Lemma key_name_inj k1 k2 : key_name k1 = key_name k2 → k1 = k2.
Proof. destruct k1, k2; simpl; intros H; first [reflexivity | discriminate H]. Qed.

Lemma install_step_key hooks k :
  install_step hooks k !! key_name k = Some (installed k (hooks !! key_name k)).
Proof.
  unfold install_step, installed.
  destruct (hooks !! key_name k) as [e|] eqn:He; simpl.
  - case_bool_decide as H1; case_bool_decide as H2; simpl;
      try (exfalso; congruence).
    + destruct (_merged e); simpl; [exact He | apply lookup_insert_eq].
    + exact He.
  - apply lookup_insert_eq.
Qed.

Lemma install_step_other hooks k (x : string) :
  x ≠ key_name k → install_step hooks k !! x = hooks !! x.
Proof.
  intros Hx. unfold install_step.
  destruct (_ && _); [|reflexivity].
  apply lookup_insert_ne. congruence.
Qed.

Lemma install_step_fixed hooks k e :
  hooks !! key_name k = Some e → (e = Default k ∨ _merged e = true) →
  install_step hooks k = hooks.
Proof.
  intros He Hfix. unfold install_step. rewrite He. simpl.
  destruct Hfix as [-> | ->].
  - rewrite bool_decide_false by (intros H; apply H; reflexivity). reflexivity.
  - rewrite andb_false_r. reflexivity.
Qed.

Lemma installed_fixed k existing :
  installed k existing = Default k ∨ _merged (installed k existing) = true.
Proof.
  unfold installed. destruct existing as [e|]; [|left; reflexivity].
  case_bool_decide as H1; simpl.
  - destruct (_merged e) eqn:Hm; simpl; [right; exact Hm | right; reflexivity].
  - left. destruct (decide (e = Default k)) as [->|Hne]; [reflexivity|contradiction].
Qed.

(** The whole loop, key by key. *)
Lemma install_loop_key hooks k :
  foldl install_step hooks hooksToMerge !! key_name k
  = Some (installed k (hooks !! key_name k)).
Proof.
  unfold hooksToMerge. simpl.
  destruct k;
    repeat first
      [ rewrite install_step_key
      | rewrite install_step_other by (simpl; discriminate) ];
    reflexivity.
Qed.

Lemma install_loop_other hooks (x : string) :
  (∀ k, x ≠ key_name k) →
  foldl install_step hooks hooksToMerge !! x = hooks !! x.
Proof.
  intros Hx. unfold hooksToMerge. simpl.
  rewrite !install_step_other by apply Hx. reflexivity.
Qed.

Lemma install_loop_idempotent hooks :
  foldl install_step (foldl install_step hooks hooksToMerge) hooksToMerge
  = foldl install_step hooks hooksToMerge.
Proof.
  set (once := foldl install_step hooks hooksToMerge).
  assert (Hfix : ∀ k, install_step once k = once).
  { intros k. eapply install_step_fixed.
    - unfold once. apply install_loop_key.
    - apply installed_fixed. }
  unfold hooksToMerge at 1. simpl. rewrite !Hfix. reflexivity.
Qed.

(** Unfolds the primitive steps of a run at a known state. *)
Ltac mrun :=
  repeat first
    [ rewrite run_bind
    | progress simpl
    | progress unfold get_vnode_data, get_vnode, get_data, get_comp, get_fn,
        alloc_data, update_vnode, update_data, update_comp, modify, must, gets, emit,
        throw, mret, M_ret
    | match goal with
      | H : ?x = Some _ |- context [?x] => rewrite H
      | H : ?x = None |- context [?x] => rewrite H
      | H : ?x = true |- context [?x] => rewrite H
      | H : ?x = false |- context [?x] => rewrite H
      end ].

(** ** The management hooks *)

Section HookProperties.
Context {World : Type} (C : Collab World).
Implicit Types (s : state World) (h : heap World).
Import componentVNodeHooks.

(** Writing into the instance slot of a node what it already holds
    changes nothing. *)
Lemma alter_componentInstance_same (m : gmap loc VNode) l v :
  m !! l = Some v →
  alter (set_componentInstance (componentInstance v)) l m = m.
Proof.
  intros Hv. apply map_eq. intros j. rewrite lookup_alter.
  case_decide as Hj; [|reflexivity]. subst j. rewrite Hv. simpl.
  destruct v; reflexivity.
Qed.

Lemma with_vnodes_same h l v :
  vnodes h !! l = Some v →
  with_vnodes (alter (set_componentInstance (componentInstance v)) l) h = h.
Proof.
  intros Hv. unfold with_vnodes.
  rewrite (alter_componentInstance_same _ _ _ Hv). destruct h; reflexivity.
Qed.

(** [prepatch], run: the instance moves over, then the update routine
    runs on the old instance; nothing else is called. *)
Lemma run_prepatch oldVnode vnode o v co h t h' :
  vnodes h !! oldVnode = Some o →
  vnodes h !! vnode = Some v →
  componentOptions v = Some co →
  updateChildComponent C (from_option VInst VUndef (componentInstance o))
    (propsData co) (listeners co) vnode (children co)
    (with_vnodes (alter (set_componentInstance (componentInstance o)) vnode) h)
  = Some (tt, h') →
  prepatch C oldVnode vnode (h, t)
  = Some (tt, (h', t ++ [EvUpdateChild
                           (from_option VInst VUndef (componentInstance o))
                           (propsData co) (listeners co) vnode (children co)])).
Proof.
  intros Ho Hv Hco Hupd. unfold prepatch. mrun.
  apply run_ext, Hupd.
Qed.

(** [init] on a kept-alive node is [prepatch] of the node with itself. *)
Lemma init_kept_alive vnode i hydrating h t :
  kept_alive h vnode i →
  init C vnode hydrating (h, t) = prepatch C vnode vnode (h, t).
Proof.
  intros (v & dl & d & c & Hv & Hi & Hdl & Hd & Hka & Hc & Hlive).
  unfold init. mrun. reflexivity.
Qed.

(** [destroy] on a kept-alive node is one call of
    [deactivateChildComponent]. *)
Lemma destroy_kept_alive vnode i h t :
  kept_alive h vnode i →
  destroy C vnode (h, t)
  = ext (EvDeactivate i true) (deactivateChildComponent C i true) (h, t).
Proof.
  intros (v & dl & d & c & Hv & Hi & Hdl & Hd & Hka & Hc & Hlive).
  unfold destroy. mrun. reflexivity.
Qed.

(** C1 (keep-alive round trip).  On a node in keep-alive mode whose
    instance is not destroyed, the destroy hook does one thing: it calls
    [deactivateChildComponent] on the instance, directly.  [$destroy] is
    not called and the hook writes nothing itself, so the instance is
    still not destroyed, deactivation being held to leave the
    [_isDestroyed] flag alone.  Afterwards, whenever the node still holds
    that live instance, the init hook is [prepatch] of the node with
    itself: its only call is the update routine on the existing instance,
    no constructor runs, and the node holds the same instance. *)
Theorem keep_alive_round_trip vnode i h t h1 :
  keeps_destroyed_flag (deactivateChildComponent C i true) →
  kept_alive h vnode i →
  deactivateChildComponent C i true h = Some (tt, h1) →
  destroy C vnode (h, t) = Some (tt, (h1, t ++ [EvDeactivate i true]))
  ∧ destroyed h1 i false
  ∧ ∀ h2 t2 hydrating,
      kept_alive h2 vnode i →
      init C vnode hydrating (h2, t2) = prepatch C vnode vnode (h2, t2)
      ∧ ∀ v co h3,
          vnodes h2 !! vnode = Some v →
          componentOptions v = Some co →
          updateChildComponent C (VInst i) (propsData co) (listeners co)
            vnode (children co) h2 = Some (tt, h3) →
          init C vnode hydrating (h2, t2)
          = Some (tt, (h3, t2 ++ [EvUpdateChild (VInst i) (propsData co)
                                    (listeners co) vnode (children co)])).
Proof.
  intros Hcontract Hka Hdeact. split; [|split].
  - rewrite (destroy_kept_alive _ _ _ _ Hka). apply run_ext, Hdeact.
  - destruct Hka as (v & dl & d & c & _ & _ & _ & _ & _ & Hc & Hlive).
    eapply Hcontract; [exact Hdeact|]. exists c. split; assumption.
  - intros h2 t2 hydrating Hka2.
    split; [apply (init_kept_alive _ _ _ _ _ Hka2)|].
    intros v co h3 Hv Hco Hupd.
    rewrite (init_kept_alive _ _ _ _ _ Hka2).
    destruct Hka2 as (v' & dl & d & c & Hv' & Hi & _).
    assert (v' = v) as -> by congruence.
    pose proof (run_prepatch vnode vnode v v co h2 t2 h3 Hv Hv Hco) as Hrun.
    rewrite Hi in Hrun. simpl in Hrun. apply Hrun.
    rewrite <- Hi. rewrite (with_vnodes_same _ _ _ Hv). exact Hupd.
Qed.

(** C3 (instance identity across update).  [prepatch N1 N2] writes the
    instance of [N1] into [N2] and then calls the update routine on that
    instance with the inputs, listeners and children of [N2] and with
    [N2] itself: this is its only call, so no instance is constructed or
    destroyed.  The update routine being held to leave the instance slots
    of nodes alone, [N2] and [N1] hold the same instance afterwards. *)
Theorem instance_identity_across_update N1 N2 v1 v2 i co h t h' :
  keeps_instances
    (updateChildComponent C (VInst i) (propsData co) (listeners co) N2
       (children co)) →
  vnodes h !! N1 = Some v1 →
  componentInstance v1 = Some i →
  vnodes h !! N2 = Some v2 →
  componentOptions v2 = Some co →
  updateChildComponent C (VInst i) (propsData co) (listeners co) N2 (children co)
    (with_vnodes (alter (set_componentInstance (Some i)) N2) h)
  = Some (tt, h') →
  prepatch C N1 N2 (h, t)
  = Some (tt, (h', t ++ [EvUpdateChild (VInst i) (propsData co) (listeners co)
                           N2 (children co)]))
  ∧ holds_instance h' N2 i
  ∧ holds_instance h' N1 i.
Proof.
  intros Hcontract Hv1 Hi Hv2 Hco Hupd.
  split; [|split].
  - pose proof (run_prepatch N1 N2 v1 v2 co h t h' Hv1 Hv2 Hco) as Hrun.
    rewrite Hi in Hrun. simpl in Hrun. apply Hrun, Hupd.
  - pose proof (Hcontract _ _ _ N2 Hupd) as Hn. simpl in Hn.
    rewrite lookup_alter_eq, Hv2 in Hn. simpl in Hn.
    destruct (vnodes h' !! N2) as [n|] eqn:Hn'; [|discriminate].
    exists n. split; [exact Hn'|]. simpl in Hn. congruence.
  - pose proof (Hcontract _ _ _ N1 Hupd) as Hn. simpl in Hn.
    rewrite lookup_alter in Hn. case_decide as Heq.
    + subst N1. rewrite Hv2 in Hn. simpl in Hn.
      destruct (vnodes h' !! N2) as [n|] eqn:Hn'; [|discriminate].
      exists n. split; [exact Hn'|]. simpl in Hn. congruence.
    + rewrite Hv1 in Hn. simpl in Hn.
      destruct (vnodes h' !! N1) as [n|] eqn:Hn'; [|discriminate].
      exists n. split; [exact Hn'|]. simpl in Hn. congruence.
Qed.
End HookProperties.

(** ** The [_isMounted] flag *)

Section Mounted.
Context {World : Type} (C : Collab World).
Implicit Types (s : state World) (h : heap World).
Import componentVNodeHooks.

Lemma pm_ret {A} (a : A) : preserves_mounted (World := World) (mret a).
Proof. intros s a' s' j b [= <- <-]. auto. Qed.

Lemma pm_throw {A} : preserves_mounted (World := World) (throw (A := A)).
Proof. intros s a s' j b [=]. Qed.

Lemma pm_bind {A B} (m : M World A) (k : A → M World B) :
  preserves_mounted m → (∀ a, preserves_mounted (k a)) →
  preserves_mounted (m ≫= k).
Proof.
  intros Hm Hk s b' s' j b Hrun Hj.
  apply bind_inv in Hrun as (a & s1 & Hrun1 & Hrun2).
  eapply Hk; [exact Hrun2|]. eapply Hm; [exact Hrun1|exact Hj].
Qed.

Lemma pm_gets {A} (f : heap World → A) : preserves_mounted (gets f).
Proof. intros s a s' j b [= <- <-]. auto. Qed.

Lemma pm_must {A} (o : option A) : preserves_mounted (World := World) (must o).
Proof. destruct o; [apply pm_ret | apply pm_throw]. Qed.

Lemma pm_ext {A} e (f : heap World → option (A * heap World)) :
  keeps_mounted_flag f → preserves_mounted (ext e f).
Proof.
  intros Hf s a s' j b Hrun Hj. apply ext_inv in Hrun as [Hrun _].
  eapply Hf; [exact Hrun|exact Hj].
Qed.

Lemma pm_update_vnode l f : preserves_mounted (World := World) (update_vnode l f).
Proof. intros s a s' j b [= <- <-]. auto. Qed.

Lemma pm_get_vnode l : preserves_mounted (World := World) (get_vnode l).
Proof. apply pm_bind; [apply pm_gets | intros; apply pm_must]. Qed.

Lemma pm_get_data l : preserves_mounted (World := World) (get_data l).
Proof. apply pm_bind; [apply pm_gets | intros; apply pm_must]. Qed.

Lemma pm_get_comp l : preserves_mounted (World := World) (get_comp l).
Proof. apply pm_bind; [apply pm_gets | intros; apply pm_must]. Qed.

Lemma pm_get_vnode_data l : preserves_mounted (World := World) (get_vnode_data l).
Proof.
  apply pm_bind; [apply pm_get_vnode | intros v].
  apply pm_bind; [apply pm_must | intros d]. apply pm_get_data.
Qed.

Ltac pm :=
  repeat first
    [ apply pm_ret | apply pm_throw | apply pm_gets | apply pm_must
    | apply pm_update_vnode | apply pm_get_vnode | apply pm_get_data
    | apply pm_get_comp | apply pm_get_vnode_data
    | apply pm_bind; [|intros ?]
    | progress cbv zeta
    | match goal with
      | |- preserves_mounted (match ?x with _ => _ end) => destruct x
      end ].


Lemma fnh_ret {A} (a : A) : fires_no_hook (World := World) (mret a).
Proof.
  intros s a' s' [= <- <-]. exists []. split; [symmetry; apply app_nil_r|].
  intros vm name Hin. inversion Hin.
Qed.

Lemma fnh_throw {A} : fires_no_hook (World := World) (throw (A := A)).
Proof. intros s a s' [=]. Qed.

Lemma fnh_bind {A B} (m : M World A) (k : A → M World B) :
  fires_no_hook m → (∀ a, fires_no_hook (k a)) → fires_no_hook (m ≫= k).
Proof.
  intros Hm Hk s b s' Hrun.
  apply bind_inv in Hrun as (a & s1 & Hrun1 & Hrun2).
  destruct (Hm _ _ _ Hrun1) as (es1 & He1 & Hq1).
  destruct (Hk _ _ _ _ Hrun2) as (es2 & He2 & Hq2).
  exists (es1 ++ es2). split.
  - rewrite He2, He1. symmetry. apply app_assoc.
  - intros vm name Hin. apply elem_of_app in Hin as [Hin|Hin].
    + exact (Hq1 _ _ Hin).
    + exact (Hq2 _ _ Hin).
Qed.

Lemma fnh_gets {A} (f : heap World → A) : fires_no_hook (gets f).
Proof.
  intros s a s' [= <- <-]. exists []. split; [symmetry; apply app_nil_r|].
  intros vm name Hin. inversion Hin.
Qed.

Lemma fnh_must {A} (o : option A) : fires_no_hook (World := World) (must o).
Proof. destruct o; [apply fnh_ret | apply fnh_throw]. Qed.

Lemma fnh_ext {A} e (f : heap World → option (A * heap World)) :
  (∀ vm name, e ≠ EvCallHook vm name) → fires_no_hook (ext e f).
Proof.
  intros He s a s' Hrun. apply ext_inv in Hrun as [_ Ht].
  exists [e]. split; [exact Ht|].
  intros vm name Hin. apply list_elem_of_singleton in Hin.
  exact (He vm name (eq_sym Hin)).
Qed.

Lemma fnh_get_vnode_data l : fires_no_hook (World := World) (get_vnode_data l).
Proof.
  repeat first [ apply fnh_gets | apply fnh_must | apply fnh_bind; [|intros ?] ].
Qed.

Lemma fnh_get_comp l : fires_no_hook (World := World) (get_comp l).
Proof.
  repeat first [ apply fnh_gets | apply fnh_must | apply fnh_bind; [|intros ?] ].
Qed.

Lemma run_fires_no_hook {A} (m : M World A) s a s' :
  m s = Some (a, s') → fires_no_hook m →
  ∃ es, s'.2 = s.2 ++ es ∧ no_callHook es.
Proof. intros Hrun Hm. exact (Hm _ _ _ Hrun). Qed.

Lemma run_preserves_mounted {A} (m : M World A) s a s' :
  m s = Some (a, s') → preserves_mounted m →
  ∀ j b, mounted s.1 j b → mounted s'.1 j b.
Proof. intros Hrun Hm j b. exact (Hm _ _ _ j b Hrun). Qed.

Lemma mounted_set h i c :
  comps h !! i = Some c →
  mounted (with_comps (alter (set_isMounted true) i) h) i true.
Proof.
  intros Hc. exists (set_isMounted true c). split; [|reflexivity].
  simpl. rewrite lookup_alter_eq, Hc. reflexivity.
Qed.

Lemma mounted_set_other h i j b :
  j ≠ i → mounted h j b →
  mounted (with_comps (alter (set_isMounted true) i) h) j b.
Proof.
  intros Hj (c & Hc & Hb). exists c. split; [|exact Hb].
  simpl. rewrite lookup_alter_ne by congruence. exact Hc.
Qed.

Section WithContract.
Hypothesis HC : lifecycle_keeps_mounted C.

Lemma pm_prepatch oldVnode vnode : preserves_mounted (prepatch C oldVnode vnode).
Proof. unfold prepatch. pm. apply pm_ext, HC. Qed.

Lemma pm_destroy vnode : preserves_mounted (destroy C vnode).
Proof. unfold destroy. pm; apply pm_ext, HC. Qed.

Lemma pm_createComponentInstanceForVnode vnode parent :
  preserves_mounted (createComponentInstanceForVnode C vnode parent).
Proof. unfold createComponentInstanceForVnode. pm; apply pm_ext, HC. Qed.

Lemma pm_init vnode hydrating : preserves_mounted (init C vnode hydrating).
Proof.
  unfold init. pm;
    first [ apply pm_prepatch | apply pm_createComponentInstanceForVnode
          | apply pm_ext, HC ].
Qed.

(** A successful run of [insert], taken apart. *)
Lemma insert_inv vnode i c h t s1 :
  holds_instance h vnode i →
  comps h !! i = Some c →
  insert C vnode (h, t) = Some (tt, s1) →
  ∃ es,
    s1.2 = t ++ (if _isMounted c then [] else [EvCallHook i "mounted"]) ++ es
    ∧ no_callHook es
    ∧ mounted s1.1 i true
    ∧ ∀ j b, (j ≠ i ∨ _isMounted c = true) → mounted h j b → mounted s1.1 j b.
Proof.
  intros (v & Hv & Hi) Hc Hrun. unfold insert in Hrun.
  rewrite (run_bind_Some _ _ _ _ _ (run_get_vnode _ _ _ _ Hv)) in Hrun.
  cbv zeta in Hrun. rewrite Hi in Hrun.
  rewrite (run_bind_Some _ _ (h, t) i (h, t) eq_refl) in Hrun.
  rewrite (run_bind_Some _ _ _ _ _ (run_get_comp _ _ _ _ Hc)) in Hrun.
  apply bind_inv in Hrun as ([] & sm & Hblock & Htail).
  assert (Hq := Htail). eapply run_fires_no_hook in Hq.
  2:{ apply fnh_bind; [apply fnh_get_vnode_data | intros d].
      destruct (truthy (keepAlive d)); [|apply fnh_ret].
      apply fnh_bind; [apply fnh_must | intros ctx].
      apply fnh_bind; [apply fnh_get_comp | intros cc].
      destruct (_isMounted cc); apply fnh_ext; discriminate. }
  assert (Hp : ∀ j b, mounted sm.1 j b → mounted s1.1 j b).
  { eapply run_preserves_mounted; [exact Htail|].
      apply pm_bind; [apply pm_get_vnode_data | intros d].
      destruct (truthy (keepAlive d)); [|apply pm_ret].
      apply pm_bind; [apply pm_must | intros ctx].
      apply pm_bind; [apply pm_get_comp | intros cc].
      destruct (_isMounted cc); apply pm_ext, HC. }
  destruct Hq as (es & Hes & Hno). exists es.
  destruct (_isMounted c) eqn:Hm; simpl in Hblock.
  - injection Hblock as <-. simpl in *.
    split; [exact Hes|]. split; [exact Hno|]. split.
    + apply Hp. exists c. split; assumption.
    + intros j b _ Hj. apply Hp, Hj.
  - rewrite run_bind in Hblock. simpl in Hblock.
    apply ext_inv in Hblock as [Hcall Htm]. simpl in Hcall, Htm.
    split; [rewrite Hes, Htm; symmetry; apply app_assoc|].
    split; [exact Hno|]. split.
    + apply Hp. eapply (km_callHook C HC); [exact Hcall|].
      apply (mounted_set _ _ _ Hc).
    + intros j b [Hj|Hj]; [|discriminate]. intros Hmj.
      apply Hp. eapply (km_callHook C HC); [exact Hcall|].
      apply mounted_set_other; assumption.
Qed.
End WithContract.

(** C2 (mounted once).  Two successive calls of the insert hook on a
    node that holds the same instance: the first fires the "mounted"
    notification exactly once if the instance was not mounted (and not at
    all if it was), the second fires none, and the instance is mounted
    after each.  The flag is written only by [insert], and only when it
    is false: a call of [insert] on a mounted instance leaves every flag
    as it was, a call on an unmounted one changes the flag of that
    instance alone, and [init], [prepatch] and [destroy] leave every flag
    as it was.  The collaborators are held to the same rule. *)
Theorem mounted_once vnode i s s1 s2 :
  lifecycle_keeps_mounted C →
  holds_instance s.1 vnode i →
  holds_instance s1.1 vnode i →
  insert C vnode s = Some (tt, s1) →
  insert C vnode s1 = Some (tt, s2) →
  (mounted s.1 i false →
     ∃ es, s1.2 = s.2 ++ EvCallHook i "mounted" :: es ∧ no_callHook es)
  ∧ (mounted s.1 i true → ∃ es, s1.2 = s.2 ++ es ∧ no_callHook es)
  ∧ (∃ es, s2.2 = s1.2 ++ es ∧ no_callHook es)
  ∧ mounted s1.1 i true
  ∧ mounted s2.1 i true
  ∧ (∀ j b, j ≠ i → mounted s.1 j b → mounted s1.1 j b)
  ∧ (∀ j b, mounted s1.1 j b → mounted s2.1 j b)
  ∧ (∀ n hydrating, preserves_mounted (init C n hydrating))
  ∧ (∀ o n, preserves_mounted (prepatch C o n))
  ∧ (∀ n, preserves_mounted (destroy C n)).
Proof.
  intros HC Hh Hh1 Hrun1 Hrun2.
  destruct s as [h t], s1 as [h1 t1]. simpl in Hh, Hh1.
  assert (∃ c, comps h !! i = Some c) as [c Hc].
  { destruct (comps h !! i) as [c|] eqn:Hc; [eauto|exfalso].
    destruct Hh as (v & Hv & Hi). unfold insert in Hrun1.
    rewrite (run_bind_Some _ _ _ _ _ (run_get_vnode _ _ _ _ Hv)) in Hrun1.
    cbv zeta in Hrun1. rewrite Hi in Hrun1.
    rewrite (run_bind_Some _ _ (h, t) i (h, t) eq_refl) in Hrun1.
    rewrite run_bind in Hrun1. unfold get_comp in Hrun1.
    rewrite run_bind in Hrun1. simpl in Hrun1. rewrite Hc in Hrun1.
    discriminate. }
  destruct (insert_inv HC _ _ _ _ _ _ Hh Hc Hrun1)
    as (es1 & Ht1 & Hno1 & Hm1 & Hother1).
  destruct Hm1 as (c1 & Hc1 & Hflag1).
  destruct (insert_inv HC _ _ _ _ _ _ Hh1 Hc1 Hrun2)
    as (es2 & Ht2 & Hno2 & Hm2 & Hother2).
  rewrite Hflag1 in Ht2, Hother2. simpl in *.
  repeat split.
  - intros (c' & Hc' & Hf). assert (c' = c) as -> by congruence.
    rewrite Hf in Ht1. exists es1. split; [exact Ht1|exact Hno1].
  - intros (c' & Hc' & Hf). assert (c' = c) as -> by congruence.
    rewrite Hf in Ht1. exists es1. split; [exact Ht1|exact Hno1].
  - exists es2. split; [exact Ht2|exact Hno2].
  - exists c1. split; assumption.
  - exact Hm2.
  - intros j b Hj. apply Hother1. left. exact Hj.
  - intros j b. apply Hother2. right. reflexivity.
  - intros n hydrating. apply pm_init, HC.
  - intros o n. apply pm_prepatch, HC.
  - intros n. apply pm_destroy, HC.
Qed.
End Mounted.

(** ** Installing and merging hooks *)

Section HookSet.
Context {World : Type} (C : Collab World).
Implicit Types (s : state World) (h : heap World).

Lemma run_installComponentHooks data d h t :
  datas h !! data = Some d →
  installComponentHooks data (h, t)
  = Some (tt, (with_datas
                 (alter (set_hook (Some (foldl install_step (default ∅ (hook d))
                                           hooksToMerge))) data) h, t)).
Proof. intros Hd. unfold installComponentHooks. mrun. reflexivity. Qed.

Lemma set_hook_twice x y (m : gmap loc VNodeData) l :
  alter (set_hook x) l (alter (set_hook y) l m) = alter (set_hook x) l m.
Proof.
  apply map_eq. intros j. destruct (decide (l = j)) as [<-|Hne].
  - rewrite !lookup_alter_eq. destruct (m !! l); reflexivity.
  - rewrite !lookup_alter_ne by exact Hne. reflexivity.
Qed.

(** C4 (idempotent hook installation).  An entry already tagged as a
    merge is left as it is by [installComponentHooks]; installing twice
    gives the hook set of installing once, on the object [data.hook] and
    on the heap, so no hook is wrapped, and none runs, a second time. *)
Theorem idempotent_hook_installation :
  (∀ (hooks : gmap string hook_fn) k e,
     hooks !! key_name k = Some e → _merged e = true →
     foldl install_step hooks hooksToMerge !! key_name k = Some e)
  ∧ (∀ hooks : gmap string hook_fn,
       foldl install_step (foldl install_step hooks hooksToMerge) hooksToMerge
       = foldl install_step hooks hooksToMerge)
  ∧ (∀ data s,
       (installComponentHooks data;; installComponentHooks data) s
       = installComponentHooks (World := World) data s).
Proof.
  split; [|split].
  - intros hooks k e He Htag. rewrite install_loop_key, He. simpl.
    rewrite Htag, andb_false_r. reflexivity.
  - apply install_loop_idempotent.
  - intros data [h t]. rewrite run_bind.
    destruct (datas h !! data) as [d|] eqn:Hd.
    + rewrite (run_installComponentHooks _ _ _ _ Hd).
      set (once := foldl install_step (default ∅ (hook d)) hooksToMerge).
      assert (Hd1 : datas (with_datas (alter (set_hook (Some once)) data) h)
                      !! data = Some (set_hook (Some once) d)).
      { cbn [datas with_datas]. rewrite lookup_alter_eq, Hd. reflexivity. }
      rewrite (run_installComponentHooks _ _ _ _ Hd1).
      change (default ∅ (hook (set_hook (Some once) d))) with once.
      unfold once. rewrite install_loop_idempotent.
      unfold with_datas. cbn [vnodes datas comps fns activeInstance world].
      rewrite set_hook_twice. reflexivity.
    + unfold installComponentHooks. mrun. reflexivity.
Qed.

(** C5 (merge ordering).  A hook found under one of the four names that
    is neither the default nor tagged as a merge is replaced by the
    closure of [mergeHook] over the default and that hook.  Calling the
    closure with [(a, b)] is calling the default hook with [(a, b)] and
    then the user hook with [(a, b)]: when the default returns, the user
    hook runs once, on the state the default left. *)
Theorem merge_ordering (hooks : gmap string hook_fn) k u :
  hooks !! key_name k = Some u →
  u ≠ Default k →
  _merged u = false →
  foldl install_step hooks hooksToMerge !! key_name k
  = Some (mergeHook (Default k) u)
  ∧ (∀ data d h t,
       datas h !! data = Some d → hook d = Some hooks →
       ∃ h' d' hooks',
         installComponentHooks data (h, t) = Some (tt, (h', t))
         ∧ datas h' !! data = Some d'
         ∧ hook d' = Some hooks'
         ∧ hooks' !! key_name k = Some (mergeHook (Default k) u))
  ∧ (∀ a b,
       invoke C (mergeHook (Default k) u) a b
       = (call_default C k a b;; invoke C u a b))
  ∧ (∀ a b s s1 s2,
       call_default C k a b s = Some (tt, s1) →
       invoke C u a b s1 = Some (tt, s2) →
       invoke C (mergeHook (Default k) u) a b s = Some (tt, s2))
  ∧ (∀ id a b s s1 h2,
       u = User id false →
       call_default C k a b s = Some (tt, s1) →
       user_hook C id a b s1.1 = Some (tt, h2) →
       invoke C (mergeHook (Default k) u) a b s
       = Some (tt, (h2, s1.2 ++ [EvUserHook id a b]))).
Proof.
  intros Hu Hne Htag.
  assert (Hinst : foldl install_step hooks hooksToMerge !! key_name k
                  = Some (mergeHook (Default k) u)).
  { rewrite install_loop_key, Hu. simpl.
    rewrite bool_decide_true by exact Hne. rewrite Htag. reflexivity. }
  split; [exact Hinst|]. split; [|split; [|split]].
  - intros data d h t Hd Hhook. eexists _, _, _. split; [|split; [|split]].
    + apply (run_installComponentHooks _ _ _ _ Hd).
    + cbn [datas with_datas]. rewrite lookup_alter_eq, Hd. reflexivity.
    + reflexivity.
    + rewrite Hhook. exact Hinst.
  - reflexivity.
  - intros a b s s1 s2 Hdef Huser. simpl.
    rewrite run_bind, Hdef. exact Huser.
  - intros id a b s s1 h2 -> Hdef Huser. simpl.
    rewrite run_bind, Hdef. destruct s1 as [h1 t1]. apply run_ext, Huser.
Qed.
End HookSet.

(** ** [createComponent]: references that give no node *)

Section NoNode.
Context {World : Type} (C : Collab World).
Implicit Types (s : state World) (h : heap World).

(** C10 (undefined reference).  With an undefined component reference
    [createComponent] returns no node at once: the heap is the one it
    was given and no call leaves the file, so there is no warning, no
    resolution, no hook installed and no data written. *)
Theorem createComponent_undefined data context children tag s :
  createComponent C VUndef data context children tag s = Some (VUndef, s).
Proof. reflexivity. Qed.

(** C8 (invalid definition), as the code has it.  When the reference is
    defined and, after a plain definition object has been compiled through
    [extend], is not a function, [createComponent] returns no node; it
    reports the warning in every build but the production one, where it is
    silent.  In both cases the run ends there: the only calls are [extend]
    (for an object) and [warn], no node is built and no hook installed. *)
Theorem invalid_definition Ctor data context children tag vm h t Ctor' h1 t1 :
  isUndef Ctor = false →
  comps h !! context = Some vm →
  (isObject Ctor = false ∧ Ctor' = Ctor ∧ h1 = h ∧ t1 = t
   ∨ isObject Ctor = true
     ∧ extend C (_base vm) Ctor h = Some (Ctor', h1)
     ∧ t1 = t ++ [EvExtend (_base vm) Ctor]) →
  is_function Ctor' = false →
  let msg := "Invalid Component definition: " +:+ ToString C Ctor' in
  (NODE_ENV C = "production" →
     createComponent C Ctor data context children tag (h, t)
     = Some (VUndef, (h1, t1)))
  ∧ (NODE_ENV C ≠ "production" →
     ∀ h2, warn C msg context h1 = Some (tt, h2) →
       createComponent C Ctor data context children tag (h, t)
       = Some (VUndef, (h2, t1 ++ [EvWarn msg context]))).
Proof.
  intros Hdef Hvm Hcompile Hnf msg.
  assert (Hprefix :
    createComponent C Ctor data context children tag (h, t)
    = ((if bool_decide (NODE_ENV C ≠ "production")
        then ext (EvWarn msg context) (warn C msg context) else mret tt);;
       mret VUndef) (h1, t1)).
  { unfold createComponent. rewrite Hdef.
    rewrite (run_bind_Some _ _ _ _ _ (run_get_comp _ _ _ _ Hvm)).
    destruct Hcompile as [(Hobj & -> & -> & ->) | (Hobj & Hext & ->)];
      rewrite Hobj.
    - rewrite (run_bind_Some _ _ (h, t) Ctor (h, t) eq_refl).
      destruct Ctor; try discriminate; reflexivity.
    - rewrite (run_bind_Some _ _ _ _ _ (run_ext _ _ _ _ _ _ Hext)).
      destruct Ctor'; try discriminate; reflexivity. }
  split.
  - intros Hprod. rewrite Hprefix.
    rewrite bool_decide_false by (intros Hne; exact (Hne Hprod)). reflexivity.
  - intros Hdev h2 Hwarn. rewrite Hprefix.
    rewrite bool_decide_true by exact Hdev.
    rewrite (run_bind_Some _ _ _ _ _ (run_ext _ _ _ _ _ _ Hwarn)). reflexivity.
Qed.
End NoNode.

(** C8, as stated, fails in a production build: the number [5] is no
    component definition, no node comes back, and nothing is reported.  It
    fails in every build for the reference [undefined], which is no
    function either and is dropped without a word. *)
Lemma invalid_definition_unreported :
  (∃ s',
     createComponent (demo "production") (VNum 5) None 0 VUndef VUndef (demo_heap, [])
     = Some (VUndef, s')
     ∧ ¬ reports_warning s'.2)
  ∧ (∃ s',
       createComponent (demo "development") VUndef None 0 VUndef VUndef (demo_heap, [])
       = Some (VUndef, s')
       ∧ ¬ reports_warning s'.2).
Proof.
  split; exists (demo_heap, []); (split; [vm_compute; reflexivity|]);
    intros (msg & vm & Hin); inversion Hin.
Qed.

Lemma invalid_definition_witness :
  createComponent (demo "production") (VNum 5) None 0 VUndef VUndef (demo_heap, [])
  = Some (VUndef, (demo_heap, []))
  ∧ createComponent (demo "development") (VNum 5) None 0 VUndef VUndef (demo_heap, [])
    = Some (VUndef, (demo_heap, [EvWarn "Invalid Component definition: 5" 0])).
Proof.
  pose proof (invalid_definition (demo "production") (VNum 5) None 0 VUndef VUndef
                {| _isMounted := true; _isDestroyed := false; _base := VFun 0 |}
                demo_heap [] (VNum 5) demo_heap [] eq_refl eq_refl
                (or_introl (conj eq_refl (conj eq_refl (conj eq_refl eq_refl))))
                eq_refl) as [Hprod _].
  pose proof (invalid_definition (demo "development") (VNum 5) None 0 VUndef VUndef
                {| _isMounted := true; _isDestroyed := false; _base := VFun 0 |}
                demo_heap [] (VNum 5) demo_heap [] eq_refl eq_refl
                (or_introl (conj eq_refl (conj eq_refl (conj eq_refl eq_refl))))
                eq_refl) as [_ Hdev].
  split.
  - apply Hprod. reflexivity.
  - apply (Hdev ltac:(discriminate) demo_heap). reflexivity.
Defined.

(** ** [createComponent]: the placeholder node *)

Section NodeSteps.
Context {World : Type} (C : Collab World).
Implicit Types (s : state World) (h : heap World).

Lemma run_new_VNode tag data children text elm context co af h t :
  new_VNode tag data children text elm context co af (h, t)
  = Some (fresh (dom (vnodes h)),
          (with_vnodes (<[fresh (dom (vnodes h)) :=
             {| vtag := tag; data := data; vchildren := children; text := text;
                elm := elm; context := context; componentOptions := co;
                componentInstance := None; asyncFactory := af |}]>) h,
           t ++ [EvNewVNode (fresh (dom (vnodes h)))])).
Proof. reflexivity. Qed.

Lemma run_update_data l f h t :
  update_data l f (h, t) = Some (tt, (with_datas (alter f l) h, t)).
Proof. reflexivity. Qed.

Lemma run_alloc_data x h t :
  alloc_data x (h, t)
  = Some (fresh (dom (datas h)),
          (with_datas (<[fresh (dom (datas h)) := x]>) h, t)).
Proof. reflexivity. Qed.

Lemma run_get_fn l h t : get_fn l (h, t) = Some (fn_props h l, (h, t)).
Proof. reflexivity. Qed.

Lemma run_mret {A} (a : A) s : mret (M := M World) a s = Some (a, s).
Proof. reflexivity. Qed.

Lemma run_must {A} (a : A) s : must (Some a) s = Some (a, s).
Proof. reflexivity. Qed.

Lemma fn_props_with_datas f h l : fn_props (with_datas f h) l = fn_props h l.
Proof. reflexivity. Qed.

Lemma fn_props_with_vnodes f h l : fn_props (with_vnodes f h) l = fn_props h l.
Proof. reflexivity. Qed.

Lemma fresh_data_ne h d D :
  datas h !! d = Some D → fresh (dom (datas h)) ≠ d.
Proof.
  intros Hd Heq. apply (is_fresh (dom (datas h))). rewrite Heq.
  apply elem_of_dom. eauto.
Qed.

End NodeSteps.

(** One step of a run whose first computation is known. *)
Ltac mstep :=
  erewrite run_bind_Some by
    first [ apply run_update_data | apply run_alloc_data | apply run_get_fn
          | apply run_mret | apply run_must | apply run_new_VNode
          | apply run_get_data; eassumption
          | apply run_installComponentHooks; eassumption ].

Section Node.
Context {World : Type} (C : Collab World).
Implicit Types (s : state World) (h : heap World).

(** The Weex branch at the end of [createComponent] is not taken. *)
Lemma run_not_recyclable l s :
  (WEEX C = false ∨ ∀ l h', isRecyclableComponent C l h' = false) →
  (if WEEX C then
     recyclable ← gets (isRecyclableComponent C l);
     if recyclable : bool then
       ext (EvRecycle l) (renderRecyclableComponentTemplate C l)
     else mret (VVNode l)
   else mret (VVNode l)) s = Some (VVNode l, s).
Proof.
  intros [Hweb | Hrec].
  - rewrite Hweb. reflexivity.
  - destruct (WEEX C); [|reflexivity].
    rewrite run_bind. unfold gets. rewrite Hrec. reflexivity.
Qed.


(** Lines 230-284, run. *)
Lemma run_createComponent_node c props af d ctx ch tag h t D O :
  datas h !! d = Some D →
  options (fn_props h c) = Some O →
  (WEEX C = false ∨ ∀ l h', isRecyclableComponent C l h' = false) →
  ∃ l h' n dn,
    createComponent_node C c props af d ctx ch tag (h, t)
    = Some (VVNode l, (h', t ++ [EvNewVNode l]))
    ∧ vnodes h' !! l = Some n
    ∧ componentOptions n
      = Some {| Ctor := VFun c; propsData := props; listeners := on D;
                tag := tag; children := ch |}
    ∧ asyncFactory n = af
    ∧ componentInstance n = None
    ∧ data n = Some dn
    ∧ datas h' !! dn = Some (node_bag O D)
    ∧ (if isTrue (abstract O)
       then dn ≠ d ∧ datas h' !! d = Some (set_on (nativeOn D) D)
       else dn = d).
Proof.
  intros Hd HO Hweex. unfold createComponent_node.
  do 3 mstep. rewrite fn_props_with_datas, HO. mstep.
  set (h1 := with_datas (alter (λ d0, set_on (nativeOn d0) d0) d) h).
  assert (Hd1 : datas h1 !! d = Some (set_on (nativeOn D) D)).
  { unfold h1. cbn [datas with_datas]. rewrite lookup_alter_eq, Hd. reflexivity. }
  unfold node_bag. destruct (isTrue (abstract O)) eqn:Habs.
  - (* an abstract constructor: a new bag, keeping the slot *)
    set (dn := fresh (dom (datas h1))).
    set (h2 := with_datas (<[dn := empty_data]>) h1).
    set (bag := if truthy (slot D) then set_slot (slot D) empty_data
                else empty_data).
    set (h3 := if truthy (slot D)
               then with_datas (alter (set_slot (slot D)) dn) h2 else h2).
    assert (Hne : dn ≠ d) by exact (fresh_data_ne _ _ _ Hd1).
    assert (Hdn : datas h3 !! dn = Some bag).
    { unfold h3, bag, h2. destruct (truthy (slot D)); cbn [datas with_datas].
      - rewrite lookup_alter_eq, lookup_insert_eq. reflexivity.
      - apply lookup_insert_eq. }
    lazymatch goal with
    | |- ∃ _ _ _ _, (?m ≫= _) _ = _ ∧ _ =>
        assert (Hblock : m (h1, t) = Some (dn, (h3, t)))
    end.
    { do 2 mstep. fold dn h2. cbn [slot set_on].
      unfold h3. destruct (truthy (slot D)); reflexivity. }
    rewrite (run_bind_Some _ _ _ _ _ Hblock).
    do 2 mstep. rewrite fn_props_with_datas.
    replace (fn_props h3 c) with (fn_props h c)
      by (unfold h3; destruct (truthy (slot D)); reflexivity).
    rewrite HO. do 2 mstep.
    rewrite run_not_recyclable by exact Hweex.
    eexists _, _, _, dn. split; [reflexivity|].
    split; [cbn [vnodes with_vnodes]; apply lookup_insert_eq|].
    do 4 (split; [reflexivity|]).
    split; [|split; [exact Hne|]]; cbn [datas with_datas with_vnodes].
    + rewrite lookup_alter_eq, Hdn. unfold bag.
      destruct (truthy (slot D)); reflexivity.
    + rewrite lookup_alter_ne by exact Hne.
      unfold h3, h2. destruct (truthy (slot D)); cbn [datas with_datas].
      * rewrite lookup_alter_ne, lookup_insert_ne by exact Hne. exact Hd1.
      * rewrite lookup_insert_ne by exact Hne. exact Hd1.
  - (* any other constructor: the bag passed in *)
    do 3 mstep. rewrite fn_props_with_datas.
    change (fn_props h1 c) with (fn_props h c). rewrite HO. do 2 mstep.
    rewrite run_not_recyclable by exact Hweex.
    eexists _, _, _, d. split; [reflexivity|].
    split; [cbn [vnodes with_vnodes]; apply lookup_insert_eq|].
    do 4 (split; [reflexivity|]).
    split; [|reflexivity]. cbn [datas with_datas with_vnodes].
    rewrite lookup_alter_eq. fold (datas h1). rewrite Hd1. reflexivity.
Qed.

(** For a constructor (a function with a [cid]) [createComponent] is the
    normal path, with no async factory. *)
Lemma run_createComponent_constructor c data ctx ch tag vm h t :
  comps h !! ctx = Some vm →
  isUndef (cid (fn_props h c)) = false →
  createComponent C (VFun c) data ctx ch tag (h, t)
  = createComponent_normal C c VUndef data ctx ch tag (h, t).
Proof.
  intros Hvm Hcid. unfold createComponent. cbn [isUndef isObject].
  rewrite (run_bind_Some _ _ _ _ _ (run_get_comp _ _ _ _ Hvm)).
  rewrite (run_bind_Some _ _ (h, t) (VFun c) (h, t) eq_refl).
  rewrite (run_bind_Some _ _ _ _ _ (run_get_fn _ _ _)).
  rewrite Hcid. reflexivity.
Qed.

(** The normal path up to the node, for a bag without [model] and a
    constructor that is not functional. *)
Lemma run_createComponent_normal_plain c af d ctx ch tag h t h1 D props h2 O :
  resolveConstructorOptions C c h = Some (tt, h1) →
  datas h1 !! d = Some D →
  model D = None →
  extractPropsFromVNodeData C d c tag h1 = Some (props, h2) →
  options (fn_props h2 c) = Some O →
  isTrue (functional O) = false →
  createComponent_normal C c af (Some d) ctx ch tag (h, t)
  = createComponent_node C c props af d ctx ch tag
      (h2, t ++ [EvResolveConstructorOptions c; EvExtractProps d c tag]).
Proof.
  intros Hrco Hd Hm Hext HO Hfun. unfold createComponent_normal. mstep.
  rewrite (run_bind_Some _ _ _ _ _ (run_ext _ _ _ _ _ _ Hrco)).
  mstep. rewrite Hm. mstep.
  rewrite (run_bind_Some _ _ _ _ _ (run_ext _ _ _ _ _ _ Hext)).
  mstep. rewrite HO. mstep. rewrite Hfun. rewrite <- app_assoc. reflexivity.
Qed.

(** C7 (abstract components), as the code has it.  The listeners are
    separated before the strip, not after: for a constructor marked
    abstract, [componentOptions.listeners] is the [on] of the data bag as
    it stood before anything was discarded, and the native listeners
    take its place in that bag.  Only then is the bag replaced: the node
    gets a new one that keeps the slot marker, if there is one, and
    receives the default hooks; it has no [on], [nativeOn] or [attrs].
    Here [h] is the heap, and [D] the bag, at line 230, where
    [createComponent] arrives for every constructor that is not
    functional; the second part spells this out for a bag without
    [model]. *)
Theorem abstract_listeners_before_strip c props af d ctx ch tag h t D O :
  datas h !! d = Some D →
  options (fn_props h c) = Some O →
  isTrue (abstract O) = true →
  (WEEX C = false ∨ ∀ l h', isRecyclableComponent C l h' = false) →
  ∃ l h' n co dn bag,
    createComponent_node C c props af d ctx ch tag (h, t)
    = Some (VVNode l, (h', t ++ [EvNewVNode l]))
    ∧ (∀ vm h0 t0 h1 D1,
         comps h0 !! ctx = Some vm →
         isUndef (cid (fn_props h0 c)) = false →
         resolveConstructorOptions C c h0 = Some (tt, h1) →
         datas h1 !! d = Some D1 →
         model D1 = None →
         extractPropsFromVNodeData C d c tag h1 = Some (props, h) →
         isTrue (functional O) = false →
         af = VUndef →
         t = t0 ++ [EvResolveConstructorOptions c; EvExtractProps d c tag] →
         createComponent C (VFun c) (Some d) ctx ch tag (h0, t0)
         = Some (VVNode l, (h', t ++ [EvNewVNode l])))
    ∧ vnodes h' !! l = Some n
    ∧ componentOptions n = Some co
    ∧ listeners co = on D
    ∧ data n = Some dn
    ∧ dn ≠ d
    ∧ datas h' !! d = Some (set_on (nativeOn D) D)
    ∧ datas h' !! dn = Some bag
    ∧ on bag = None ∧ nativeOn bag = None ∧ attrs bag = None
    ∧ model bag = None ∧ keepAlive bag = VUndef
    ∧ slot bag = (if truthy (slot D) then slot D else VUndef)
    ∧ hook bag = Some (foldl install_step ∅ hooksToMerge).
Proof.
  intros Hd HO Habs Hweex.
  destruct (run_createComponent_node c props af d ctx ch tag h t D O Hd HO Hweex)
    as (l & h' & n & dn & Hrun & Hn & Hco & _ & _ & Hdata & Hbag & Hrest).
  rewrite Habs in Hrest. destruct Hrest as [Hne Hold].
  unfold node_bag in Hbag. rewrite Habs in Hbag.
  eexists l, h', n, _, dn, _.
  split; [exact Hrun|]. split.
  { intros vm h0 t0 h1 D1 Hvm Hcid Hrco Hd1 Hm Hext Hfun -> ->.
    rewrite (run_createComponent_constructor _ _ _ _ _ _ _ _ Hvm Hcid).
    rewrite (run_createComponent_normal_plain _ _ _ _ _ _ _ _ _ _ _ _ _
               Hrco Hd1 Hm Hext HO Hfun).
    exact Hrun. }
  split; [exact Hn|]. split; [exact Hco|].
  split; [reflexivity|]. split; [exact Hdata|]. split; [exact Hne|].
  split; [exact Hold|]. split; [exact Hbag|].
  destruct (truthy (slot D)); repeat split; reflexivity.
Qed.



End Node.

(** ** The binding transform *)

Section Binding.
Context {World : Type} (C : Collab World).
Implicit Types (s : state World) (h : heap World).

(** [transformModel], run: the input goes under its name in [attrs], the
    callback under the event name in [on], and nothing else moves. *)
Lemma run_transformModel O d D m h t :
  datas h !! d = Some D →
  model D = Some m →
  let prop := model_name (opt_model O ≫= prop) "value" in
  let event := model_name (opt_model O ≫= event) "input" in
  let existing := default ∅ (on D) !! event in
  ∃ h' D' a o,
    transformModel (Some O) d (h, t) = Some (tt, (h', t))
    ∧ datas h' !! d = Some D'
    ∧ fns h' = fns h
    ∧ attrs D' = Some a
    ∧ a !! prop = Some (value m)
    ∧ on D' = Some o
    ∧ o !! event = Some (spec_binding_entry existing (callback m))
    ∧ (∀ x, x ≠ event → o !! x = default ∅ (on D) !! x).
Proof.
  intros Hd Hm prop event existing. unfold transformModel.
  do 2 mstep. rewrite Hm. mstep. cbv zeta.
  fold prop event. fold existing.
  rewrite run_update_data.
  eexists _, _, _, _. split; [reflexivity|].
  split; [cbn [datas with_datas]; rewrite lookup_alter_eq, Hd; reflexivity|].
  split; [reflexivity|]. split; [reflexivity|].
  split; [apply lookup_insert_eq|]. split; [reflexivity|].
  unfold spec_binding_entry.
  destruct existing as [[g|gs]|] eqn:Hex; cbn [listener_isDef].
  - destruct (isDef g).
    + destruct (decide (g = callback m)) as [Heq|Hneq].
      * rewrite bool_decide_false by (intros Hn; exact (Hn Heq)).
        split; [exact Hex|reflexivity].
      * rewrite bool_decide_true by exact Hneq.
        split; [apply lookup_insert_eq|].
        intros x Hx. apply lookup_insert_ne. congruence.
    + split; [apply lookup_insert_eq|].
      intros x Hx. apply lookup_insert_ne. congruence.
  - destruct (decide (callback m ∈ gs)) as [Hin|Hnin].
    + rewrite bool_decide_false by (intros Hn; exact (Hn Hin)).
      split; [exact Hex|reflexivity].
    + rewrite bool_decide_true by exact Hnin.
      split; [apply lookup_insert_eq|].
      intros x Hx. apply lookup_insert_ne. congruence.
  - split; [apply lookup_insert_eq|].
    intros x Hx. apply lookup_insert_ne. congruence.
Qed.

(** C9 (binding transform).  For a constructor [c] that is not
    functional and a bag [d] carrying [model = {value, callback}], the
    node [createComponent] builds has [value] among its inputs, under
    the declared input name or ["value"] when none is declared, and its
    listeners hold, under the declared event name or ["input"], the
    entry the spec describes: the callback alone when there was no
    listener (the name free, or holding [undefined] or [null]), the list
    of the callback followed by the existing listener(s) otherwise, and
    the existing entry unchanged when it is, or contains, that same
    callback.  The input extractor is held to carry that input over
    from [attrs]. *)
Theorem binding_transform c af d ctx ch tag h t h1 D m O :
  resolveConstructorOptions C c h = Some (tt, h1) →
  datas h1 !! d = Some D →
  model D = Some m →
  options (fn_props h1 c) = Some O →
  isTrue (functional O) = false →
  let prop := model_name (opt_model O ≫= prop) "value" in
  let event := model_name (opt_model O ≫= event) "input" in
  let existing := default ∅ (on D) !! event in
  extractor_contract C d c tag prop →
  (WEEX C = false ∨ ∀ l h', isRecyclableComponent C l h' = false) →
  ∃ l h' n co inputs ls,
  createComponent_normal C c af (Some d) ctx ch tag (h, t)
  = Some (VVNode l,
          (h', t ++ [EvResolveConstructorOptions c; EvExtractProps d c tag;
                     EvNewVNode l]))
  ∧ (∀ vm,
       comps h !! ctx = Some vm →
       isUndef (cid (fn_props h c)) = false →
       af = VUndef →
       createComponent C (VFun c) (Some d) ctx ch tag (h, t)
       = Some (VVNode l,
               (h', t ++ [EvResolveConstructorOptions c; EvExtractProps d c tag;
                          EvNewVNode l])))
  ∧ vnodes h' !! l = Some n
    ∧ componentOptions n = Some co
    ∧ propsData co = Some inputs
    ∧ inputs !! prop = Some (value m)
    ∧ listeners co = Some ls
    ∧ ls !! event = Some (spec_binding_entry existing (callback m)).
Proof.
  intros Hrco Hd Hm HO Hfun prop event existing Hex Hweex.
  destruct (run_transformModel O d D m h1 (t ++ [EvResolveConstructorOptions c])
              Hd Hm)
    as (h2 & D2 & a & o & Htm & Hd2 & Hfns2 & Ha & Hprop & Ho & Hevent & _).
  fold prop in Hprop. fold event existing in Hevent.
  destruct (ex_total C d c tag prop Hex h2) as [[props h3] Hext].
  pose proof (ex_input C d c tag prop Hex _ _ _ _ _ Hext Hd2 Ha) as Hin.
  pose proof (ex_on C d c tag prop Hex _ _ _ Hext) as Hon.
  pose proof (ex_fns C d c tag prop Hex _ _ _ Hext) as Hfns3.
  rewrite Hd2 in Hon. cbn [fmap option_fmap option_map] in Hon.
  destruct (datas h3 !! d) as [D3|] eqn:Hd3; [|discriminate].
  injection Hon as Hon.
  assert (HO3 : options (fn_props h3 c) = Some O).
  { unfold fn_props in *. rewrite Hfns3, Hfns2. exact HO. }
  destruct (run_createComponent_node C c props af d ctx ch tag h3
              ((t ++ [EvResolveConstructorOptions c]) ++ [EvExtractProps d c tag])
              D3 O Hd3 HO3 Hweex)
    as (l & h' & n & dn & Hnode & Hn & Hco & _).
  rewrite Hprop in Hin. destruct props as [inputs|]; [|discriminate].
  assert (Hnormal :
    createComponent_normal C c af (Some d) ctx ch tag (h, t)
    = Some (VVNode l,
            (h', t ++ [EvResolveConstructorOptions c; EvExtractProps d c tag;
                       EvNewVNode l]))).
  { unfold createComponent_normal. mstep.
    rewrite (run_bind_Some _ _ _ _ _ (run_ext _ _ _ _ _ _ Hrco)).
    mstep. rewrite Hm.
    assert (Hblock :
      (fo ← get_fn c; transformModel (options fo) d)
        (h1, t ++ [EvResolveConstructorOptions c])
      = Some (tt, (h2, t ++ [EvResolveConstructorOptions c]))).
    { mstep. rewrite HO. exact Htm. }
    rewrite (run_bind_Some _ _ _ _ _ Hblock).
    rewrite (run_bind_Some _ _ _ _ _ (run_ext _ _ _ _ _ _ Hext)).
    mstep. rewrite HO3. mstep. rewrite Hfun.
    rewrite Hnode. rewrite <- !app_assoc. reflexivity. }
  eexists l, h', n, _, inputs, o.
  split; [exact Hnormal|]. split; [|split; [exact Hn|split; [exact Hco|]]].
  - intros vm Hvm Hcid ->.
    rewrite (run_createComponent_constructor C _ _ _ _ _ _ _ _ Hvm Hcid).
    exact Hnormal.
  - cbn [propsData listeners].
    split; [reflexivity|]. split; [exact Hin|].
    split; [rewrite Hon; exact Ho|exact Hevent].
Qed.
End Binding.

(** ** The statements at work on the concrete collaborators *)

Section DemoContracts.
Variable env : string.

Lemma demo_identity_keeps_destroyed :
  keeps_destroyed_flag (deactivateChildComponent (demo env) 1 true).
Proof. intros h a h' j b [= <- <-] Hj. exact Hj. Qed.

Lemma demo_update_keeps_instances vm props ls vnode ch :
  keeps_instances (updateChildComponent (demo env) vm props ls vnode ch).
Proof. intros h a h' n [= <- <-]. reflexivity. Qed.

Lemma demo_keeps_mounted : lifecycle_keeps_mounted (demo env).
Proof.
  split; intros; intros h a h' j b Hrun Hj; simpl in Hrun;
    injection Hrun as <- <-; try exact Hj.
  - destruct Hj as (c & Hc & Hb).
    exists (if decide (vm = j) then set_isDestroyed true c else c).
    simpl. rewrite lookup_alter. destruct (decide (vm = j)) as [->|Hne].
    + rewrite Hc. split; [reflexivity|exact Hb].
    + split; [exact Hc|exact Hb].
  - destruct Hj as (c & Hc & Hb). exists c. split; [|exact Hb].
    simpl. rewrite lookup_insert_ne; [exact Hc|].
    intros Heq. apply (is_fresh (dom (comps h))). rewrite Heq.
    apply elem_of_dom. eauto.
Qed.

Lemma demo_extractor d c tag x : extractor_contract (demo env) d c tag x.
Proof.
  split.
  - intros h. eexists. reflexivity.
  - intros h props h' D a [= <- <-] HD Ha. rewrite HD. simpl. rewrite Ha.
    reflexivity.
  - intros h props h' [= <- <-]. reflexivity.
  - intros h props h' [= <- <-]. reflexivity.
Qed.
End DemoContracts.

Lemma keep_alive_round_trip_witness :
  componentVNodeHooks.destroy (demo "development") 10 (demo_child_heap, [])
  = Some (tt, (demo_child_heap, [EvDeactivate 1 true]))
  ∧ destroyed demo_child_heap 1 false
  ∧ componentVNodeHooks.init (demo "development") 10 VUndef (demo_child_heap, [])
    = Some (tt, (demo_child_heap, [EvUpdateChild (VInst 1) None None 10 VUndef])).
Proof.
  assert (Hka : kept_alive demo_child_heap 10 1).
  { eexists _, _, _, _. repeat split; reflexivity. }
  destruct (keep_alive_round_trip (demo "development") 10 1 demo_child_heap []
              demo_child_heap (demo_identity_keeps_destroyed _) Hka eq_refl)
    as (Hdestroy & Hflag & Hinit).
  split; [exact Hdestroy|]. split; [exact Hflag|].
  destruct (Hinit demo_child_heap [] VUndef Hka) as [_ Hrun].
  exact (Hrun _ child_options demo_child_heap eq_refl eq_refl eq_refl).
Defined.

Lemma instance_identity_across_update_witness :
  ∃ h',
    componentVNodeHooks.prepatch (demo "development") 10 11 (demo_child_heap, [])
    = Some (tt, (h', [EvUpdateChild (VInst 1) None None 11 VUndef]))
    ∧ holds_instance h' 11 1
    ∧ holds_instance h' 10 1.
Proof.
  eexists.
  eapply (instance_identity_across_update (demo "development") 10 11 _ _ 1
            child_options demo_child_heap []).
  - apply demo_update_keeps_instances.
  - reflexivity.
  - reflexivity.
  - reflexivity.
  - reflexivity.
  - reflexivity.
Defined.

Lemma mounted_once_witness :
  let C := demo "development" in
  let s := (demo_child_heap, []) in
  let s1 := after (componentVNodeHooks.insert C 10) s in
  let s2 := after (componentVNodeHooks.insert C 10) s1 in
  s1.2 = [EvCallHook 1 "mounted"; EvQueueActivated 1]
  ∧ s2.2 = [EvCallHook 1 "mounted"; EvQueueActivated 1; EvQueueActivated 1]
  ∧ (∃ es, s1.2 = s.2 ++ EvCallHook 1 "mounted" :: es ∧ no_callHook es)
  ∧ (∃ es, s2.2 = s1.2 ++ es ∧ no_callHook es)
  ∧ mounted s1.1 1 true
  ∧ mounted s2.1 1 true.
Proof.
  intros C s s1 s2.
  assert (Hs : holds_instance s.1 10 1) by (eexists; split; reflexivity).
  assert (Hs1 : holds_instance s1.1 10 1) by (eexists; split; reflexivity).
  assert (Hrun1 : componentVNodeHooks.insert C 10 s = Some (tt, s1))
    by (vm_compute; reflexivity).
  assert (Hrun2 : componentVNodeHooks.insert C 10 s1 = Some (tt, s2))
    by (vm_compute; reflexivity).
  destruct (mounted_once C 10 1 s s1 s2 (demo_keeps_mounted _) Hs Hs1 Hrun1 Hrun2)
    as (Hfirst & _ & Hsecond & Hm1 & Hm2 & _).
  split; [vm_compute; reflexivity|]. split; [vm_compute; reflexivity|].
  split; [apply Hfirst; eexists; split; reflexivity|].
  split; [exact Hsecond|]. split; [exact Hm1|exact Hm2].
Defined.

Lemma idempotent_hook_installation_witness :
  let hooks : gmap string hook_fn := {[ "insert" := User 3 false ]} in
  let once := foldl install_step hooks hooksToMerge in
  once !! "insert" = Some (Merged (Default Insert) (User 3 false))
  ∧ foldl install_step once hooksToMerge !! "insert"
    = Some (Merged (Default Insert) (User 3 false))
  ∧ foldl install_step once hooksToMerge = once.
Proof.
  intros hooks once.
  destruct (idempotent_hook_installation (World := DemoWorld))
    as (Htagged & Hidem & _).
  assert (Honce : once !! key_name Insert
                  = Some (Merged (Default Insert) (User 3 false)))
    by (vm_compute; reflexivity).
  split; [exact Honce|].
  split; [exact (Htagged once Insert _ Honce eq_refl)|exact (Hidem hooks)].
Defined.

Lemma merge_ordering_witness :
  let C := demo "development" in
  let hooks : gmap string hook_fn := {[ "insert" := User 3 false ]} in
  foldl install_step hooks hooksToMerge !! "insert"
  = Some (Merged (Default Insert) (User 3 false))
  ∧ invoke C (Merged (Default Insert) (User 3 false)) (VVNode 10) VUndef
      (demo_child_heap, [])
    = Some (tt, ((after (componentVNodeHooks.insert C 10) (demo_child_heap, [])).1,
                 [EvCallHook 1 "mounted"; EvQueueActivated 1;
                  EvUserHook 3 (VVNode 10) VUndef])).
Proof.
  intros C hooks.
  destruct (merge_ordering C hooks Insert (User 3 false) eq_refl
              ltac:(discriminate) eq_refl)
    as (Hinst & _ & _ & _ & Huser).
  split; [exact Hinst|].
  exact (Huser 3 (VVNode 10) VUndef (demo_child_heap, [])
           (after (componentVNodeHooks.insert C 10) (demo_child_heap, []))
           _ eq_refl eq_refl eq_refl).
Defined.


(** C7, as stated, fails: built for the abstract constructor [3] from a
    bag whose [on] holds a [click] listener, the node has that listener in
    [componentOptions.listeners], while the bag as it stands after the
    strip has no [on] at all. *)
Lemma abstract_listeners_not_read_after_strip :
  ∃ l h' t' n co dn bag,
    createComponent (demo "development") (VFun 3) (Some 20) 0 VUndef
      (VStr "keep-alive") (demo_abstract_heap, [])
    = Some (VVNode l, (h', t'))
    ∧ vnodes h' !! l = Some n
    ∧ componentOptions n = Some co
    ∧ data n = Some dn
    ∧ datas h' !! dn = Some bag
    ∧ listeners co = Some {[ "click" := Single (VFun 7) ]}
    ∧ on bag = None
    ∧ listeners co ≠ on bag.
Proof.
  eexists _, _, _, _, _, _, _.
  split; [vm_compute; reflexivity|].
  split; [vm_compute; reflexivity|].
  split; [reflexivity|].
  split; [reflexivity|].
  split; [vm_compute; reflexivity|].
  split; [vm_compute; reflexivity|].
  split; [reflexivity|].
  discriminate.
Qed.

Lemma abstract_listeners_before_strip_witness :
  ∃ l h' n co dn bag,
    createComponent (demo "development") (VFun 3) (Some 20) 0 VUndef
      (VStr "keep-alive") (demo_abstract_heap, [])
    = Some (VVNode l,
            (h', [EvResolveConstructorOptions 3;
                  EvExtractProps 20 3 (VStr "keep-alive"); EvNewVNode l]))
    ∧ vnodes h' !! l = Some n
    ∧ componentOptions n = Some co
    ∧ listeners co = Some {[ "click" := Single (VFun 7) ]}
    ∧ data n = Some dn
    ∧ dn ≠ 20
    ∧ (on <$> datas h' !! 20) = Some (Some {[ "focus" := Single (VFun 8) ]})
    ∧ datas h' !! dn = Some bag
    ∧ on bag = None ∧ nativeOn bag = None ∧ attrs bag = None
    ∧ slot bag = VStr "default".
Proof.
  destruct (abstract_listeners_before_strip (demo "development") 3
              (Some {[ "id" := VStr "x" ]}) VUndef 20 0
              VUndef (VStr "keep-alive") demo_abstract_heap
              [EvResolveConstructorOptions 3;
               EvExtractProps 20 3 (VStr "keep-alive")] _ _
              eq_refl eq_refl eq_refl (or_introl eq_refl))
    as (l & h' & n & co & dn & bag & _ & Hrun & Hn & Hco & Hls & Hdata & Hne
        & Hold & Hbag & Hon & Hnative & Hattrs & _ & _ & Hslot & _).
  exists l, h', n, co, dn, bag.
  split; [exact (Hrun _ demo_abstract_heap [] demo_abstract_heap _
                   eq_refl eq_refl eq_refl eq_refl eq_refl eq_refl eq_refl
                   eq_refl eq_refl)|].
  split; [exact Hn|]. split; [exact Hco|].
  split; [exact Hls|]. split; [exact Hdata|]. split; [exact Hne|].
  split; [exact (f_equal (fmap on) Hold)|]. split; [exact Hbag|].
  split; [exact Hon|]. split; [exact Hnative|]. split; [exact Hattrs|exact Hslot].
Defined.

Lemma binding_transform_witness :
  let C := demo "development" in
  (* no listener yet: listeners.input === fn *)
  (∃ l h' n co inputs ls,
     createComponent C (VFun 1) (Some 20) 0 VUndef (VStr "child")
       (demo_model_heap None, [])
     = Some (VVNode l,
             (h', [EvResolveConstructorOptions 1; EvExtractProps 20 1 (VStr "child");
                   EvNewVNode l]))
     ∧ vnodes h' !! l = Some n
     ∧ componentOptions n = Some co
     ∧ propsData co = Some inputs
     ∧ inputs !! "value" = Some (VNum 5)
     ∧ listeners co = Some ls
     ∧ ls !! "input" = Some (Single (VFun 7)))
  (* an existing listener g: the list [fn, g] *)
  ∧ (∃ l h' n co inputs ls,
       createComponent C (VFun 1) (Some 20) 0 VUndef (VStr "child")
         (demo_model_heap (Some (Single (VFun 9))), [])
       = Some (VVNode l,
               (h', [EvResolveConstructorOptions 1;
                     EvExtractProps 20 1 (VStr "child"); EvNewVNode l]))
       ∧ vnodes h' !! l = Some n
       ∧ componentOptions n = Some co
       ∧ propsData co = Some inputs
       ∧ inputs !! "value" = Some (VNum 5)
       ∧ listeners co = Some ls
       ∧ ls !! "input" = Some (Multi [VFun 7; VFun 9]))
  (* the same callback already there: not added twice *)
  ∧ (∃ l h' n co inputs ls,
       createComponent C (VFun 1) (Some 20) 0 VUndef (VStr "child")
         (demo_model_heap (Some (Single (VFun 7))), [])
       = Some (VVNode l,
               (h', [EvResolveConstructorOptions 1;
                     EvExtractProps 20 1 (VStr "child"); EvNewVNode l]))
       ∧ vnodes h' !! l = Some n
       ∧ componentOptions n = Some co
       ∧ propsData co = Some inputs
       ∧ inputs !! "value" = Some (VNum 5)
       ∧ listeners co = Some ls
       ∧ ls !! "input" = Some (Single (VFun 7)))
  (* an entry that holds null: no listener, fn alone *)
  ∧ (∃ l h' n co inputs ls,
       createComponent C (VFun 1) (Some 20) 0 VUndef (VStr "child")
         (demo_model_heap (Some (Single VNull)), [])
       = Some (VVNode l,
               (h', [EvResolveConstructorOptions 1;
                     EvExtractProps 20 1 (VStr "child"); EvNewVNode l]))
       ∧ vnodes h' !! l = Some n
       ∧ componentOptions n = Some co
       ∧ propsData co = Some inputs
       ∧ inputs !! "value" = Some (VNum 5)
       ∧ listeners co = Some ls
       ∧ ls !! "input" = Some (Single (VFun 7))).
Proof.
  intros C.
  assert (Hrun : ∀ existing,
            existing = None ∨ existing = Some (Single (VFun 9))
            ∨ existing = Some (Single (VFun 7))
            ∨ existing = Some (Single VNull) →
            ∃ l h' n co inputs ls,
              createComponent C (VFun 1) (Some 20) 0 VUndef (VStr "child")
                (demo_model_heap existing, [])
              = Some (VVNode l,
                      (h', [EvResolveConstructorOptions 1;
                            EvExtractProps 20 1 (VStr "child"); EvNewVNode l]))
              ∧ vnodes h' !! l = Some n
              ∧ componentOptions n = Some co
              ∧ propsData co = Some inputs
              ∧ inputs !! "value" = Some (VNum 5)
              ∧ listeners co = Some ls
              ∧ ls !! "input" = Some (spec_binding_entry existing (VFun 7))).
  { intros existing Hcase.
    destruct (binding_transform C 1 VUndef 20 0 VUndef (VStr "child")
                (demo_model_heap existing) [] (demo_model_heap existing) _
                {| value := VNum 5; callback := VFun 7 |} plain_options
                eq_refl eq_refl eq_refl eq_refl eq_refl
                (demo_extractor _ _ _ _ _) (or_introl eq_refl))
      as (l & h' & n & co & inputs & ls & _ & Hcreate & Hn & Hco & Hin & Hv & Hls
          & He).
    exists l, h', n, co, inputs, ls.
    split; [exact (Hcreate _ eq_refl eq_refl eq_refl)|].
    split; [exact Hn|]. split; [exact Hco|]. split; [exact Hin|].
    split; [exact Hv|]. split; [exact Hls|].
    destruct Hcase as [-> | [-> | [-> | ->]]]; exact He. }
  split; [|split; [|split]].
  - exact (Hrun None (or_introl eq_refl)).
  - exact (Hrun (Some (Single (VFun 9))) (or_intror (or_introl eq_refl))).
  - exact (Hrun (Some (Single (VFun 7)))
             (or_intror (or_intror (or_introl eq_refl)))).
  - exact (Hrun (Some (Single VNull))
             (or_intror (or_intror (or_intror eq_refl)))).
Defined.

(** * Further properties of the code *)

(** ** The hooks on nodes that cannot be reused, or are broken *)

Section HookEdges.
Context {World : Type} (C : Collab World).
Implicit Types (s : state World) (h : heap World).
Import componentVNodeHooks.

(** [init] on a node it cannot reuse, run. *)
Lemma run_init_create vnode hydrating v dl d co h t child h1 h2 :
  vnodes h !! vnode = Some v →
  data v = Some dl →
  datas h !! dl = Some d →
  componentOptions v = Some co →
  not_reusable h vnode →
  let options :=
    {| _isComponent := true; _parentVnode := vnode; parent := activeInstance h;
       o_render := from_option render VUndef (inlineTemplate d);
       o_staticRenderFns := from_option staticRenderFns VUndef (inlineTemplate d) |} in
  construct C (Ctor co) options h = Some (child, h1) →
  ∀ v1, vnodes h1 !! vnode = Some v1 →
  let el := if truthy hydrating then elm v1 else VUndef in
  vm_mount C child el hydrating
    (with_vnodes (alter (set_componentInstance (Some child)) vnode) h1)
  = Some (tt, h2) →
  init C vnode hydrating (h, t)
  = Some (tt, (h2, t ++ [EvNew (Ctor co) options; EvMount child el hydrating])).
Proof.
  intros Hv Hdl Hd Hco (v' & dl' & d' & Hv' & Hdl' & Hd' & Hnot) options Hnew v1 Hv1
    el Hmount.
  assert (v' = v) as -> by congruence.
  assert (dl' = dl) as -> by congruence.
  assert (d' = d) as -> by congruence.
  assert (Hcreate :
    createComponentInstanceForVnode C vnode (activeInstance h) (h, t)
    = Some (child, (h1, t ++ [EvNew (Ctor co) options]))).
  { unfold createComponentInstanceForVnode.
    rewrite (run_bind_Some _ _ _ _ _ (run_get_vnode_data _ _ _ _ _ _ Hv Hdl Hd)).
    rewrite (run_bind_Some _ _ _ _ _ (run_get_vnode _ _ _ _ Hv)).
    rewrite Hco. rewrite (run_bind_Some _ _ (h, t) co (h, t) eq_refl).
    cbv zeta. replace (match inlineTemplate d with Some t0 => _ | None => _ end)
      with options by (unfold options; destruct (inlineTemplate d); reflexivity).
    apply run_ext, Hnew. }
  assert (Htail :
    (parent ← gets activeInstance;
     child ← createComponentInstanceForVnode C vnode parent;
     update_vnode vnode (set_componentInstance (Some child));;
     v ← get_vnode vnode;
     let el := if truthy hydrating then elm v else VUndef in
     ext (EvMount child el hydrating) (vm_mount C child el hydrating)) (h, t)
    = Some (tt, (h2, t ++ [EvNew (Ctor co) options; EvMount child el hydrating]))).
  { rewrite (run_bind_Some _ _ (h, t) (activeInstance h) (h, t) eq_refl).
    rewrite (run_bind_Some _ _ _ _ _ Hcreate).
    rewrite (run_bind_Some _ _ (h1, t ++ [EvNew (Ctor co) options]) tt
               (with_vnodes (alter (set_componentInstance (Some child)) vnode) h1,
                t ++ [EvNew (Ctor co) options]) eq_refl).
    assert (Hv1' : vnodes (with_vnodes (alter (set_componentInstance (Some child))
                                          vnode) h1) !! vnode
                   = Some (set_componentInstance (Some child) v1)).
    { cbn [vnodes with_vnodes]. rewrite lookup_alter_eq, Hv1. reflexivity. }
    rewrite (run_bind_Some _ _ _ _ _ (run_get_vnode _ _ _ _ Hv1')).
    cbv zeta. cbn [elm set_componentInstance]. fold el.
    rewrite (run_ext _ _ _ _ _ _ Hmount). rewrite <- app_assoc. reflexivity. }
  unfold init.
  rewrite (run_bind_Some _ _ _ _ _ (run_get_vnode _ _ _ _ Hv)).
  destruct (componentInstance v) as [i|] eqn:Hi.
  - destruct Hnot as (c & Hc & Hwhy).
    assert (Hcond :
      (c ← get_comp i;
       if _isDestroyed c then mret false
       else d ← get_vnode_data vnode; mret (truthy (keepAlive d))) (h, t)
      = Some (false, (h, t))).
    { rewrite (run_bind_Some _ _ _ _ _ (run_get_comp _ _ _ _ Hc)).
      destruct (_isDestroyed c) eqn:Hdes; [reflexivity|].
      destruct Hwhy as [Hwhy|Hwhy]; [discriminate|].
      rewrite (run_bind_Some _ _ _ _ _ (run_get_vnode_data _ _ _ _ _ _ Hv Hdl Hd)).
      rewrite Hwhy. reflexivity. }
    rewrite (run_bind_Some _ _ _ _ _ Hcond). exact Htail.
  - rewrite (run_bind_Some _ _ (h, t) false (h, t) eq_refl). exact Htail.
Qed.

(** X1.  On a node that holds no live kept-alive instance, [init] makes
    exactly two calls: the constructor of [componentOptions.Ctor], with
    the node as [_parentVnode], the active instance as [parent] and the
    render functions of the inline template if the bag has one; then
    [$mount] on the new instance, which the node already holds at that
    point.  The mount target is [vnode.elm] when hydrating and [undefined]
    otherwise.  An instance the node held before is not consulted. *)
Theorem init_creates_and_mounts vnode hydrating v dl d co h t child h1 h2 :
  vnodes h !! vnode = Some v →
  data v = Some dl →
  datas h !! dl = Some d →
  componentOptions v = Some co →
  not_reusable h vnode →
  let options :=
    {| _isComponent := true; _parentVnode := vnode; parent := activeInstance h;
       o_render := from_option render VUndef (inlineTemplate d);
       o_staticRenderFns := from_option staticRenderFns VUndef (inlineTemplate d) |} in
  construct C (Ctor co) options h = Some (child, h1) →
  ∀ v1, vnodes h1 !! vnode = Some v1 →
  let el := if truthy hydrating then elm v1 else VUndef in
  vm_mount C child el hydrating
    (with_vnodes (alter (set_componentInstance (Some child)) vnode) h1)
  = Some (tt, h2) →
  init C vnode hydrating (h, t)
  = Some (tt, (h2, t ++ [EvNew (Ctor co) options; EvMount child el hydrating])).
Proof.
  intros Hv Hdl Hd Hco Hnot options Hnew v1 Hv1 el Hmount.
  exact (run_init_create vnode hydrating v dl d co h t child h1 h2
           Hv Hdl Hd Hco Hnot Hnew v1 Hv1 Hmount).
Qed.

(** [destroy] on a destroyed instance, run. *)
Lemma run_destroy_destroyed vnode v i c s :
  vnodes s.1 !! vnode = Some v →
  componentInstance v = Some i →
  comps s.1 !! i = Some c →
  _isDestroyed c = true →
  destroy C vnode s = Some (tt, s).
Proof.
  destruct s as [h t]. simpl. intros Hv Hi Hc Hdes. unfold destroy.
  rewrite (run_bind_Some _ _ _ _ _ (run_get_vnode _ _ _ _ Hv)).
  rewrite Hi. rewrite (run_bind_Some _ _ (h, t) i (h, t) eq_refl).
  rewrite (run_bind_Some _ _ _ _ _ (run_get_comp _ _ _ _ Hc)).
  rewrite Hdes. reflexivity.
Qed.

(** X2.  [destroy] on a node whose instance is already destroyed does
    nothing at all: no call, no write, whatever the keep-alive mode, and
    even when the node has no data bag. *)
Theorem destroy_destroyed_noop vnode v i c s :
  vnodes s.1 !! vnode = Some v →
  componentInstance v = Some i →
  comps s.1 !! i = Some c →
  _isDestroyed c = true →
  destroy C vnode s = Some (tt, s).
Proof. apply run_destroy_destroyed. Qed.

(** X3.  Outside keep-alive mode, [destroy] on a live instance is one call
    of [$destroy], and [deactivateChildComponent] is not called.  When
    [$destroy] marks the instance destroyed, a second [destroy] on the
    node adds nothing: across both calls the instance is torn down once. *)
Theorem destroy_tears_down_once vnode v dl d i c h t h1 :
  vnodes h !! vnode = Some v →
  componentInstance v = Some i →
  data v = Some dl →
  datas h !! dl = Some d →
  truthy (keepAlive d) = false →
  comps h !! i = Some c →
  _isDestroyed c = false →
  vm_destroy C i h = Some (tt, h1) →
  destroy C vnode (h, t) = Some (tt, (h1, t ++ [EvDestroy i]))
  ∧ (holds_instance h1 vnode i → destroyed h1 i true →
     (destroy C vnode;; destroy C vnode) (h, t)
     = Some (tt, (h1, t ++ [EvDestroy i]))).
Proof.
  intros Hv Hi Hdl Hd Hka Hc Hlive Hdes.
  assert (Hfirst : destroy C vnode (h, t) = Some (tt, (h1, t ++ [EvDestroy i]))).
  { unfold destroy.
    rewrite (run_bind_Some _ _ _ _ _ (run_get_vnode _ _ _ _ Hv)).
    rewrite Hi. rewrite (run_bind_Some _ _ (h, t) i (h, t) eq_refl).
    rewrite (run_bind_Some _ _ _ _ _ (run_get_comp _ _ _ _ Hc)).
    rewrite Hlive. cbn [negb].
    rewrite (run_bind_Some _ _ _ _ _ (run_get_vnode_data _ _ _ _ _ _ Hv Hdl Hd)).
    rewrite Hka. apply run_ext, Hdes. }
  split; [exact Hfirst|].
  intros (v1 & Hv1 & Hi1) (c1 & Hc1 & Hdes1).
  rewrite (run_bind_Some _ _ _ _ _ Hfirst).
  exact (run_destroy_destroyed vnode v1 i c1 (h1, t ++ [EvDestroy i])
           Hv1 Hi1 Hc1 Hdes1).
Qed.

(** X4.  [insert] on an instance that is already mounted fires nothing
    and writes nothing.  Outside keep-alive mode it is a no-op.  In
    keep-alive mode it is one call: [queueActivatedComponent] when the
    context of the node is mounted, [activateChildComponent], directly,
    when it is not. *)
Theorem insert_mounted_routing vnode v dl d i c h t :
  vnodes h !! vnode = Some v →
  componentInstance v = Some i →
  data v = Some dl →
  datas h !! dl = Some d →
  comps h !! i = Some c →
  _isMounted c = true →
  (truthy (keepAlive d) = false → insert C vnode (h, t) = Some (tt, (h, t)))
  ∧ (∀ ctx cc,
       truthy (keepAlive d) = true →
       context v = Some ctx →
       comps h !! ctx = Some cc →
       insert C vnode (h, t)
       = if _isMounted cc
         then ext (EvQueueActivated i) (queueActivatedComponent C i) (h, t)
         else ext (EvActivate i true) (activateChildComponent C i true) (h, t)).
Proof.
  intros Hv Hi Hdl Hd Hc Hm.
  assert (Hhead :
    insert C vnode (h, t)
    = (d ← get_vnode_data vnode;
       if truthy (keepAlive d) then
         context ← must (context v);
         cc ← get_comp context;
         if _isMounted cc then
           ext (EvQueueActivated i) (queueActivatedComponent C i)
         else ext (EvActivate i true) (activateChildComponent C i true)
       else mret tt) (h, t)).
  { unfold insert.
    rewrite (run_bind_Some _ _ _ _ _ (run_get_vnode _ _ _ _ Hv)).
    cbv zeta. rewrite Hi. rewrite (run_bind_Some _ _ (h, t) i (h, t) eq_refl).
    rewrite (run_bind_Some _ _ _ _ _ (run_get_comp _ _ _ _ Hc)).
    rewrite Hm. cbn [negb].
    rewrite (run_bind_Some _ _ (h, t) tt (h, t) eq_refl). reflexivity. }
  rewrite Hhead.
  rewrite (run_bind_Some _ _ _ _ _ (run_get_vnode_data _ _ _ _ _ _ Hv Hdl Hd)).
  split.
  - intros ->. reflexivity.
  - intros ctx cc -> Hctx Hcc. rewrite Hctx.
    rewrite (run_bind_Some _ _ (h, t) ctx (h, t) eq_refl).
    rewrite (run_bind_Some _ _ _ _ _ (run_get_comp _ _ _ _ Hcc)).
    destruct (_isMounted cc); reflexivity.
Qed.

(** X5.  [insert] on an instance that is not mounted sets [_isMounted]
    before it calls [callHook]: the "mounted" notification runs on a heap
    where the flag is already true.  After the notification, [insert]
    goes on as on a mounted instance. *)
Theorem insert_first_mount vnode v i c h t h1 :
  vnodes h !! vnode = Some v →
  componentInstance v = Some i →
  comps h !! i = Some c →
  _isMounted c = false →
  callHook C i "mounted" (with_comps (alter (set_isMounted true) i) h)
  = Some (tt, h1) →
  vnodes h1 !! vnode = Some v →
  mounted h1 i true →
  mounted (with_comps (alter (set_isMounted true) i) h) i true
  ∧ insert C vnode (h, t) = insert C vnode (h1, t ++ [EvCallHook i "mounted"]).
Proof.
  intros Hv Hi Hc Hm Hcall Hv1 (c1 & Hc1 & Hm1).
  split; [exact (mounted_set _ _ _ Hc)|].
  unfold insert.
  rewrite (run_bind_Some _ _ _ _ _ (run_get_vnode _ _ _ _ Hv)).
  rewrite (run_bind_Some _ _ _ _ _ (run_get_vnode _ _ _ _ Hv1)).
  cbv zeta. rewrite Hi.
  rewrite (run_bind_Some _ _ (h, t) i (h, t) eq_refl).
  rewrite (run_bind_Some _ _ (h1, t ++ [EvCallHook i "mounted"]) i
             (h1, t ++ [EvCallHook i "mounted"]) eq_refl).
  rewrite (run_bind_Some _ _ _ _ _ (run_get_comp _ _ _ _ Hc)).
  rewrite (run_bind_Some _ _ _ _ _ (run_get_comp _ _ _ _ Hc1)).
  rewrite Hm, Hm1. cbn [negb].
  assert (Hblock :
    (update_comp i (set_isMounted true);;
     ext (EvCallHook i "mounted") (callHook C i "mounted")) (h, t)
    = Some (tt, (h1, t ++ [EvCallHook i "mounted"]))).
  { rewrite (run_bind_Some _ _ (h, t) tt
               (with_comps (alter (set_isMounted true) i) h, t) eq_refl).
    apply run_ext, Hcall. }
  rewrite (run_bind_Some _ _ _ _ _ Hblock).
  rewrite (run_bind_Some _ _ (h1, t ++ [EvCallHook i "mounted"]) tt
             (h1, t ++ [EvCallHook i "mounted"]) eq_refl).
  reflexivity.
Qed.

(** X6.  What the hooks do with a node they cannot work on.  [insert]
    and [destroy] throw on a node that holds no instance, [prepatch] on
    a new node without [componentOptions], [init] on a node without data
    bag.  Called with something that is no node, [init], [insert] and
    [destroy] throw before they call anything, and so does [prepatch]
    when its old node is [undefined] or [null] or its new node is no
    node.  [prepatch] with any other old value that is no node does not
    throw: such a value has no instance, so the new node's instance
    becomes [undefined] and [updateChildComponent] is called with
    [undefined]. *)
Theorem hooks_throw_on_broken_nodes vnode v s :
  vnodes s.1 !! vnode = Some v →
  (componentInstance v = None →
     insert C vnode s = None ∧ destroy C vnode s = None)
  ∧ (componentOptions v = None →
       ∀ old o, vnodes s.1 !! old = Some o → prepatch C old vnode s = None)
  ∧ (data v = None → ∀ hydrating, init C vnode hydrating s = None)
  ∧ (∀ k a b, (∀ l, a ≠ VVNode l) → k ≠ Prepatch →
       call_default C k a b s = None)
  ∧ (∀ a b, isUndef a = true → call_default C Prepatch a b s = None)
  ∧ (∀ a b, (∀ l, b ≠ VVNode l) → call_default C Prepatch a b s = None)
  ∧ (∀ a co h1,
       (∀ l, a ≠ VVNode l) →
       isUndef a = false →
       componentOptions v = Some co →
       updateChildComponent C VUndef (propsData co) (listeners co) vnode
         (children co)
         (with_vnodes (alter (set_componentInstance None) vnode) s.1)
       = Some (tt, h1) →
       call_default C Prepatch a (VVNode vnode) s
       = Some (tt, (h1, s.2 ++ [EvUpdateChild VUndef (propsData co)
                                  (listeners co) vnode (children co)]))).
Proof.
  destruct s as [h t]. simpl. intros Hv.
  split; [|split; [|split; [|split; [|split; [|split]]]]].
  - intros Hi. split.
    + unfold insert.
      rewrite (run_bind_Some _ _ _ _ _ (run_get_vnode _ _ _ _ Hv)).
      cbv zeta. rewrite Hi. reflexivity.
    + unfold destroy.
      rewrite (run_bind_Some _ _ _ _ _ (run_get_vnode _ _ _ _ Hv)).
      rewrite Hi. reflexivity.
  - intros Hco old o Ho. unfold prepatch.
    rewrite (run_bind_Some _ _ _ _ _ (run_get_vnode _ _ _ _ Hv)).
    cbv zeta.
    rewrite (run_bind_Some _ _ _ _ _ (run_get_vnode _ _ _ _ Ho)).
    rewrite Hco.
    rewrite (run_bind_Some _ _ (h, t) tt
               (with_vnodes (alter (set_componentInstance (componentInstance o))
                               vnode) h, t) eq_refl).
    reflexivity.
  - intros Hdata hydrating.
    assert (Hnodata : ∀ t', get_vnode_data vnode (h, t') = None).
    { intros t'. unfold get_vnode_data.
      rewrite (run_bind_Some _ _ _ _ _ (run_get_vnode _ _ _ _ Hv)).
      rewrite Hdata. reflexivity. }
    assert (Hcreate :
      (parent ← gets activeInstance;
       child ← createComponentInstanceForVnode C vnode parent;
       update_vnode vnode (set_componentInstance (Some child));;
       v ← get_vnode vnode;
       let el := if truthy hydrating then elm v else VUndef in
       ext (EvMount child el hydrating) (vm_mount C child el hydrating)) (h, t)
      = None).
    { rewrite (run_bind_Some _ _ (h, t) (activeInstance h) (h, t) eq_refl).
      rewrite run_bind. unfold createComponentInstanceForVnode.
      rewrite run_bind, Hnodata. reflexivity. }
    unfold init.
    rewrite (run_bind_Some _ _ _ _ _ (run_get_vnode _ _ _ _ Hv)).
    destruct (componentInstance v) as [i|].
    + rewrite run_bind. rewrite run_bind.
      destruct (comps h !! i) as [c|] eqn:Hc.
      * rewrite (run_get_comp _ _ _ _ Hc).
        destruct (_isDestroyed c).
        -- exact Hcreate.
        -- rewrite run_bind, Hnodata. reflexivity.
      * unfold get_comp. rewrite run_bind. simpl. rewrite Hc. reflexivity.
    + rewrite (run_bind_Some _ _ (h, t) false (h, t) eq_refl). exact Hcreate.
  - intros k a b Ha Hk.
    destruct k, a; try reflexivity; try (exfalso; apply Hk; reflexivity);
      exfalso; eapply Ha; reflexivity.
  - intros a b Ha. destruct a; try discriminate; destruct b; reflexivity.
  - intros a b Hb.
    destruct a, b; try reflexivity; exfalso; eapply Hb; reflexivity.
  - intros a co h1 Ha Hund Hco Hup.
    assert (Hrun :
      (v ← get_vnode vnode;
       let options := componentOptions v in
       update_vnode vnode (set_componentInstance None);;
       options ← must options;
       ext (EvUpdateChild VUndef (propsData options) (listeners options) vnode
              (children options))
           (updateChildComponent C VUndef (propsData options) (listeners options)
              vnode (children options))) (h, t)
      = Some (tt, (h1, t ++ [EvUpdateChild VUndef (propsData co) (listeners co)
                               vnode (children co)]))).
    { rewrite (run_bind_Some _ _ _ _ _ (run_get_vnode _ _ _ _ Hv)).
      cbv zeta. rewrite Hco.
      rewrite (run_bind_Some _ _ (h, t) tt
                 (with_vnodes (alter (set_componentInstance None) vnode) h, t)
                 eq_refl).
      rewrite (run_bind_Some _ _ _ co _ eq_refl).
      apply run_ext, Hup. }
    destruct a; try discriminate; try exact Hrun.
    exfalso. eapply Ha. reflexivity.
Qed.
End HookEdges.

(** ** Merged hooks and the hook set *)

Section MergedHooks.
Context {World : Type} (C : Collab World).
Implicit Types (s : state World) (h : heap World).

Lemma invoke_all_app fs gs a b s :
  invoke_all C (fs ++ gs) a b s
  = (invoke_all C fs a b;; invoke_all C gs a b) s.
Proof.
  revert s. induction fs as [|f fs IH]; intros s.
  - reflexivity.
  - cbn [app invoke_all foldr]. rewrite !run_bind.
    destruct (invoke C f a b s) as [[[] s1]|]; [|reflexivity].
    fold (invoke_all C (fs ++ gs) a b). fold (invoke_all C fs a b).
    rewrite IH. rewrite run_bind. reflexivity.
Qed.

Lemma invoke_all_one f a b s :
  invoke_all C [f] a b s = invoke C f a b s.
Proof.
  cbn [invoke_all foldr]. rewrite run_bind.
  destruct (invoke C f a b s) as [[[] s1]|]; reflexivity.
Qed.

(** X7.  However merges are nested, calling a hook is calling its leaves
    from left to right with the same two arguments, each once, the next
    one on the state the previous one left; when one throws, the ones
    after it do not run. *)
Theorem invoke_runs_leaves f a b s :
  invoke C f a b s = invoke_all C (leaves f) a b s.
Proof.
  revert s. induction f as [k|id tagged|f1 IH1 f2 IH2]; intros s.
  - symmetry. apply invoke_all_one.
  - symmetry. apply invoke_all_one.
  - cbn [leaves invoke]. rewrite invoke_all_app, !run_bind, IH1.
    destruct (invoke_all C (leaves f1) a b s) as [[[] s1]|]; [|reflexivity].
    apply IH2.
Qed.

(** X8.  [installComponentHooks] on a bag, on the heap: it returns, makes
    no call, and changes nothing but hooks.  Under each of the four
    names the bag then has a hook: the default if the name was free or
    held the default, the hook that was there if it was tagged as a
    merge, the merge of the default and that hook otherwise; hooks
    under any other name stay as they were.  Of every other bag all
    fields but [hook] are as before; its hooks are not spoken of, since
    the code writes into the object [data.hook] refers to (lines
    327-339) and a bag that shares that object sees the same entries.
    Nodes, instances and functions are untouched. *)
Theorem installComponentHooks_effect data d h t :
  datas h !! data = Some d →
  ∃ h' hooks',
    installComponentHooks data (h, t) = Some (tt, (h', t))
    ∧ datas h' !! data = Some (set_hook (Some hooks') d)
    ∧ (∀ l, l ≠ data →
         set_hook None <$> datas h' !! l = set_hook None <$> datas h !! l)
    ∧ vnodes h' = vnodes h ∧ comps h' = comps h ∧ fns h' = fns h
    ∧ activeInstance h' = activeInstance h ∧ world h' = world h
    ∧ (∀ k, hooks' !! key_name k
            = Some (installed k (default ∅ (hook d) !! key_name k)))
    ∧ (∀ x : string, (∀ k, x ≠ key_name k) →
         hooks' !! x = default ∅ (hook d) !! x).
Proof.
  intros Hd. eexists _, _. split; [apply (run_installComponentHooks _ _ _ _ Hd)|].
  cbn [datas vnodes comps fns activeInstance world with_datas].
  split; [rewrite lookup_alter_eq, Hd; reflexivity|].
  split; [intros l Hl; rewrite lookup_alter_ne by congruence; reflexivity|].
  do 5 (split; [reflexivity|]).
  split; [intros k; apply install_loop_key|].
  intros x Hx. apply install_loop_other, Hx.
Qed.
End MergedHooks.

(** ** [transformModel] on its own *)

Section ModelTransform.
Context {World : Type}.
Implicit Types (s : state World) (h : heap World).

(** [transformModel], run on a bag that has a [model]. *)
Lemma run_transformModel_bag O d D m h t :
  datas h !! d = Some D →
  model D = Some m →
  let prop := model_name (opt_model O ≫= prop) "value" in
  let event := model_name (opt_model O ≫= event) "input" in
  transformModel (Some O) d (h, t)
  = Some (tt,
          (with_datas
             (alter (λ d0,
                set_on (Some (bind_listener (callback m) event (default ∅ (on D))))
                  (set_attrs (Some (<[prop := value m]> (default ∅ (attrs D)))) d0))
                d) h, t)).
Proof.
  intros Hd Hm prop event. unfold transformModel.
  do 2 mstep. rewrite Hm. mstep. cbv zeta. fold prop event.
  rewrite run_update_data. unfold bind_listener.
  destruct (default ∅ (on D) !! event) as [[g|gs]|]; reflexivity.
Qed.

Lemma run_transformModel_no_bag O d h t :
  datas h !! d = None → transformModel (World := World) (Some O) d (h, t) = None.
Proof.
  intros Hd. unfold transformModel. mstep. cbv zeta.
  rewrite run_bind. unfold get_data. rewrite run_bind. cbn.
  rewrite Hd. reflexivity.
Qed.

Lemma run_transformModel_no_model O d D h t :
  datas h !! d = Some D → model D = None →
  transformModel (Some O) d (h, t) = None.
Proof.
  intros Hd Hm. unfold transformModel. do 2 mstep. rewrite Hm. reflexivity.
Qed.

Lemma bind_listener_twice callback event (on : gmap string listener) :
  bind_listener callback event (bind_listener callback event on)
  = bind_listener callback event on.
Proof.
  unfold bind_listener at 2 3.
  destruct (on !! event) as [[g|gs]|] eqn:He; cbn [listener_isDef listener_fns].
  - destruct (isDef g) eqn:Hg.
    + case_bool_decide as Hne.
      * unfold bind_listener. rewrite lookup_insert_eq. cbn [listener_isDef].
        rewrite bool_decide_false; [reflexivity|].
        intros Hn. apply Hn. apply list_elem_of_here.
      * unfold bind_listener. rewrite He. cbn [listener_isDef]. rewrite Hg.
        rewrite bool_decide_false by first [exact Hne | intros Hn; exact (Hn Hne)].
        reflexivity.
    + unfold bind_listener. rewrite lookup_insert_eq. cbn [listener_isDef].
      destruct (isDef callback).
      * rewrite bool_decide_false; [reflexivity|]. intros Hn. apply Hn. reflexivity.
      * apply insert_insert_eq.
  - case_bool_decide as Hnin.
    + unfold bind_listener. rewrite lookup_insert_eq. cbn [listener_isDef].
      rewrite bool_decide_false; [reflexivity|].
      intros Hn. apply Hn. apply list_elem_of_here.
    + unfold bind_listener. rewrite He. cbn [listener_isDef].
      rewrite bool_decide_false by first [exact Hnin | intros Hn; exact (Hn Hnin)].
      reflexivity.
  - unfold bind_listener. rewrite lookup_insert_eq. cbn [listener_isDef].
    destruct (isDef callback).
    + rewrite bool_decide_false; [reflexivity|]. intros Hn. apply Hn. reflexivity.
    + apply insert_insert_eq.
Qed.

(** X9.  [transformModel] is idempotent: run twice on the same bag with
    the same options it leaves what one run leaves, and throws when one
    run throws.  The callback is not registered a second time and the
    input is written over itself. *)
Theorem transformModel_idempotent options data s :
  (transformModel options data;; transformModel options data) s
  = transformModel (World := World) options data s.
Proof.
  destruct s as [h t]. rewrite run_bind.
  destruct options as [O|]; [|reflexivity].
  destruct (datas h !! data) as [D|] eqn:Hd.
  2:{ rewrite run_transformModel_no_bag by exact Hd. reflexivity. }
  destruct (model D) as [m|] eqn:Hm.
  2:{ rewrite (run_transformModel_no_model O data D h t Hd Hm). reflexivity. }
  rewrite (run_transformModel_bag O data D m h t Hd Hm). cbv zeta.
  set (prop := model_name (opt_model O ≫= prop) "value").
  set (event := model_name (opt_model O ≫= event) "input").
  set (on1 := bind_listener (callback m) event (default ∅ (on D))).
  set (attrs1 := <[prop := value m]> (default ∅ (attrs D))).
  set (f := λ d0, set_on (Some on1) (set_attrs (Some attrs1) d0)).
  assert (Hd1 : datas (with_datas (alter f data) h) !! data = Some (f D)).
  { cbn [datas with_datas]. rewrite lookup_alter_eq, Hd. reflexivity. }
  rewrite (run_transformModel_bag O data (f D) m _ t Hd1 Hm). cbv zeta.
  fold prop event. cbn [on attrs f set_on set_attrs default from_option id].
  unfold attrs1 at 1. rewrite insert_insert_eq. fold attrs1.
  unfold on1 at 1. rewrite bind_listener_twice. fold on1. fold f.
  unfold with_datas. cbn [vnodes datas comps fns activeInstance world].
  replace (alter f data (alter f data (datas h))) with (alter f data (datas h));
    [reflexivity|].
  apply map_eq. intros j. destruct (decide (data = j)) as [<-|Hne].
  - rewrite !lookup_alter_eq. destruct (datas h !! data); reflexivity.
  - rewrite !lookup_alter_ne by exact Hne. reflexivity.
Qed.

(** X10.  [transformModel] only adds.  After it the callback is among the
    functions registered under the event name; every function that was
    registered there is still registered, behind the callback; at most
    one function was added; listeners under other events and
    attributes under other names are as before, and so are the fields
    [hook], [slot], [keepAlive], [model], [inlineTemplate] and the rest.
    [nativeOn] is not spoken of: once [createComponent] has run on a
    bag, [data.on] is the very object [data.nativeOn] (line 236), and
    what is written through the one shows through the other. *)
Theorem transformModel_only_adds O d D m h t :
  datas h !! d = Some D →
  model D = Some m →
  let prop := model_name (opt_model O ≫= prop) "value" in
  let event := model_name (opt_model O ≫= event) "input" in
  ∃ h' D' attrs' on' entry,
    transformModel (Some O) d (h, t) = Some (tt, (h', t))
    ∧ datas h' !! d = Some D'
    ∧ attrs D' = Some attrs' ∧ on D' = Some on'
    ∧ attrs' !! prop = Some (value m)
    ∧ (∀ x, x ≠ prop → attrs' !! x = default ∅ (attrs D) !! x)
    ∧ on' !! event = Some entry
    ∧ callback m ∈ listener_fns entry
    ∧ (∀ old g, default ∅ (on D) !! event = Some old →
         listener_isDef old = true → g ∈ listener_fns old →
         g ∈ listener_fns entry)
    ∧ (∀ old, default ∅ (on D) !! event = Some old →
         (List.length (listener_fns entry) ≤ S (List.length (listener_fns old)))%nat)
    ∧ (∀ x, x ≠ event → on' !! x = default ∅ (on D) !! x)
    ∧ hook D' = hook D ∧ slot D' = slot D
    ∧ keepAlive D' = keepAlive D ∧ model D' = model D
    ∧ inlineTemplate D' = inlineTemplate D ∧ rest D' = rest D.
Proof.
  intros Hd Hm prop event.
  pose proof (run_transformModel_bag O d D m h t Hd Hm) as Hrun.
  cbv zeta in Hrun. fold prop event in Hrun.
  set (on0 := default ∅ (on D)) in *.
  assert (Hentry : ∃ entry,
    bind_listener (callback m) event on0 !! event = Some entry
    ∧ callback m ∈ listener_fns entry
    ∧ (∀ old g, on0 !! event = Some old → listener_isDef old = true →
         g ∈ listener_fns old → g ∈ listener_fns entry)
    ∧ (∀ old, on0 !! event = Some old →
         (List.length (listener_fns entry) ≤ S (List.length (listener_fns old)))%nat)
    ∧ (∀ x, x ≠ event → bind_listener (callback m) event on0 !! x = on0 !! x)).
  { unfold bind_listener.
    destruct (on0 !! event) as [old|] eqn:He.
    - destruct (listener_isDef old) eqn:Hdef.
      + destruct (match old with
                  | Multi fs => bool_decide (callback m ∉ fs)
                  | Single f => bool_decide (f ≠ callback m)
                  end) eqn:Hnew.
        * eexists. split; [apply lookup_insert_eq|]. cbn [listener_fns].
          split; [apply list_elem_of_here|].
          split; [intros old' g [= <-] _ Hg; apply list_elem_of_further, Hg|].
          split; [intros old' [= <-]; cbn [List.length]; lia|].
          intros x Hx. apply lookup_insert_ne. congruence.
        * exists old. split; [exact He|].
          split.
          { destruct old as [f|fs]; cbn [listener_fns].
            - apply bool_decide_eq_false in Hnew.
              destruct (decide (f = callback m)) as [->|Hne];
                [apply list_elem_of_here|contradiction].
            - apply bool_decide_eq_false in Hnew.
              destruct (decide (callback m ∈ fs)); [assumption|contradiction]. }
          split; [intros old' g [= <-] _ Hg; exact Hg|].
          split; [intros old' [= <-]; lia|].
          intros x Hx. reflexivity.
      + eexists. split; [apply lookup_insert_eq|]. cbn [listener_fns].
        split; [apply list_elem_of_here|].
        split; [intros old' g [= <-] Hdef'; congruence|].
        split; [intros old' [= <-]; destruct old; cbn [listener_fns List.length]; lia|].
        intros x Hx. apply lookup_insert_ne. congruence.
    - eexists. split; [apply lookup_insert_eq|]. cbn [listener_fns].
      split; [apply list_elem_of_here|].
      split; [intros old' g [=]|].
      split; [intros old' [=]|].
      intros x Hx. apply lookup_insert_ne. congruence. }
  destruct Hentry as (entry & He & Hin & Hkeep & Hlen & Hother).
  eexists _, _, _, _, entry. split; [exact Hrun|].
  split; [cbn [datas with_datas]; rewrite lookup_alter_eq, Hd; reflexivity|].
  cbn [attrs on nativeOn hook slot keepAlive model inlineTemplate rest
       set_on set_attrs].
  split; [reflexivity|]. split; [reflexivity|].
  split; [apply lookup_insert_eq|].
  split; [intros x Hx; apply lookup_insert_ne; congruence|].
  split; [exact He|]. split; [exact Hin|]. split; [exact Hkeep|].
  split; [exact Hlen|]. split; [exact Hother|].
  repeat split; reflexivity.
Qed.

(** X11.  [transformModel] throws exactly when it is given no options,
    when the bag is missing, or when the bag has no [model]; in every
    other case it returns. *)
Theorem transformModel_throws_iff options d h t :
  transformModel options d (h, t) = None
  ↔ options = None
    ∨ datas h !! d = None
    ∨ ∃ D, datas h !! d = Some D ∧ model D = None.
Proof.
  destruct options as [O|].
  2:{ split; [intros _; left; reflexivity | intros _; reflexivity]. }
  destruct (datas h !! d) as [D|] eqn:Hd.
  2:{ split; [intros _; right; left; reflexivity|]. intros _.
      apply run_transformModel_no_bag, Hd. }
  destruct (model D) as [m|] eqn:Hm.
  - rewrite (run_transformModel_bag O d D m h t Hd Hm). cbv zeta.
    split; [discriminate|].
    intros [Hn | [Hn | (D' & HD' & Hn)]]; try discriminate. congruence.
  - split; [intros _; right; right; exists D; split; [reflexivity|exact Hm]|].
    intros _. exact (run_transformModel_no_model O d D h t Hd Hm).
Qed.
End ModelTransform.

(** ** The calls a function may make *)

Section Emits.
Context {World : Type} (C : Collab World).
Implicit Types (s : state World) (h : heap World) (P : effect → bool).

Lemma em_ret {A} P (a : A) : emits (World := World) P (mret a).
Proof.
  intros s a' s' [= <- <-]. exists []. split; [symmetry; apply app_nil_r|].
  constructor.
Qed.

Lemma em_throw {A} P : emits (World := World) P (throw (A := A)).
Proof. intros s a s' [=]. Qed.

Lemma em_bind {A B} P (m : M World A) (k : A → M World B) :
  emits P m → (∀ a, emits P (k a)) → emits P (m ≫= k).
Proof.
  intros Hm Hk s b s' Hrun.
  apply bind_inv in Hrun as (a & s1 & Hrun1 & Hrun2).
  destruct (Hm _ _ _ Hrun1) as (es1 & He1 & Hq1).
  destruct (Hk _ _ _ _ Hrun2) as (es2 & He2 & Hq2).
  exists (es1 ++ es2). split.
  - rewrite He2, He1. symmetry. apply app_assoc.
  - apply Forall_app. split; assumption.
Qed.

Lemma em_gets {A} P (f : heap World → A) : emits P (gets f).
Proof.
  intros s a s' [= <- <-]. exists []. split; [symmetry; apply app_nil_r|].
  constructor.
Qed.

Lemma em_modify P (f : heap World → heap World) : emits P (modify f).
Proof.
  intros s a s' [= <- <-]. exists []. split; [symmetry; apply app_nil_r|].
  constructor.
Qed.

Lemma em_must {A} P (o : option A) : emits (World := World) P (must o).
Proof. destruct o; [apply em_ret | apply em_throw]. Qed.

Lemma em_ext {A} P e (f : heap World → option (A * heap World)) :
  P e = true → emits P (ext e f).
Proof.
  intros He s a s' Hrun. apply ext_inv in Hrun as [_ Ht].
  exists [e]. split; [exact Ht|]. repeat constructor. exact He.
Qed.

Lemma em_emit P e : P e = true → emits (World := World) P (emit e).
Proof.
  intros He s a s' [= <- <-]. exists [e]. split; [reflexivity|].
  repeat constructor. exact He.
Qed.

Lemma em_weaken {A} P Q (m : M World A) :
  (∀ e, P e = true → Q e = true) → emits P m → emits Q m.
Proof.
  intros HPQ Hm s a s' Hrun. destruct (Hm _ _ _ Hrun) as (es & He & Hes).
  exists es. split; [exact He|]. eapply Forall_impl; [exact Hes|exact HPQ].
Qed.

Ltac em :=
  repeat first
    [ apply em_ret | apply em_throw | apply em_gets | apply em_modify
    | apply em_must | apply em_ext; reflexivity | apply em_emit; reflexivity
    | progress cbv zeta
    | match goal with
      | |- emits _ (match ?x with _ => _ end) => destruct x
      end
    | progress unfold get_vnode_data, get_vnode, get_data, get_comp, get_fn,
        alloc_data, update_vnode, update_data, update_comp, new_VNode
    | apply em_bind; [|intros ?] ].

Lemma em_installComponentHooks P data :
  emits (World := World) P (installComponentHooks data).
Proof. unfold installComponentHooks. em. Qed.

Lemma em_transformModel P o data :
  emits (World := World) P (transformModel o data).
Proof. unfold transformModel. em. Qed.

Lemma em_createComponent_node c props af d ctx ch tag :
  emits builder_effect (createComponent_node C c props af d ctx ch tag).
Proof.
  unfold createComponent_node.
  repeat first [ apply em_installComponentHooks | progress em ].
Qed.

Lemma em_createComponent_normal c af data ctx ch tag :
  emits builder_effect (createComponent_normal C c af data ctx ch tag).
Proof.
  unfold createComponent_normal.
  repeat first [ apply em_createComponent_node | apply em_transformModel
               | progress em ].
Qed.

Lemma em_createComponent Ctor data ctx ch tag :
  emits builder_effect (createComponent C Ctor data ctx ch tag).
Proof.
  unfold createComponent.
  repeat first [ apply em_createComponent_normal | progress em ].
Qed.

Import componentVNodeHooks.

Lemma em_prepatch o n : emits lifecycle_effect (prepatch C o n).
Proof. unfold prepatch. em. Qed.

Lemma em_init vnode hydrating : emits lifecycle_effect (init C vnode hydrating).
Proof.
  unfold init, createComponentInstanceForVnode.
  repeat first [ apply em_prepatch | progress em ].
Qed.

Lemma em_insert vnode : emits lifecycle_effect (insert C vnode).
Proof. unfold insert. em. Qed.

Lemma em_destroy vnode : emits lifecycle_effect (destroy C vnode).
Proof. unfold destroy. em. Qed.

Lemma em_call_default k a b : emits lifecycle_effect (call_default C k a b).
Proof.
  unfold call_default.
  destruct k, a; try apply em_throw;
    first [ apply em_init | apply em_insert | apply em_destroy
          | destruct b; first [apply em_throw | apply em_prepatch | em] ].
Qed.

(** X12.  Building a node never reaches a component instance.  Whatever
    reference it is given, the calls [createComponent] makes are calls
    of the builder's collaborators ([extend], [warn], the async
    resolver and placeholder, [resolveConstructorOptions],
    [extractPropsFromVNodeData], [createFunctionalComponent], the node
    constructor, the Weex template renderer): nothing is constructed,
    mounted, updated, activated or destroyed, no lifecycle hook is
    called, and no hook of the user runs.  What was on the trace
    before stays there. *)
Theorem createComponent_only_builds Ctor data ctx ch tag s r s' :
  createComponent C Ctor data ctx ch tag s = Some (r, s') →
  ∃ es, s'.2 = s.2 ++ es ∧ Forall (λ e, builder_effect e = true) es.
Proof. intros Hrun. exact (em_createComponent Ctor data ctx ch tag _ _ _ Hrun). Qed.

(** X13.  The four default hooks only make lifecycle calls
    (construction, [$mount], [updateChildComponent], [callHook], the
    activation queue, activation, deactivation, [$destroy]): none of
    them builds a node, resolves a constructor or warns, and none calls
    a hook of the user.  A hook as installed, merges included, adds to
    these only the user's own hooks. *)
Theorem hooks_only_lifecycle f a b s r s' :
  invoke C f a b s = Some (r, s') →
  ∃ es, s'.2 = s.2 ++ es
        ∧ Forall (λ e, lifecycle_effect e || user_effect e = true) es
        ∧ ((∀ id tagged, User id tagged ∉ leaves f) →
           Forall (λ e, lifecycle_effect e = true) es).
Proof.
  revert s r s'. induction f as [k|id tg|f1 IH1 f2 IH2]; intros s r s' Hrun.
  - cbn [invoke] in Hrun.
    destruct (em_call_default k a b _ _ _ Hrun) as (es & He & Hes).
    exists es. split; [exact He|]. split; [|intros _; exact Hes].
    eapply Forall_impl; [exact Hes|]. intros e ->. reflexivity.
  - cbn [invoke] in Hrun. apply ext_inv in Hrun as [_ Ht].
    exists [EvUserHook id a b]. split; [exact Ht|].
    split; [repeat constructor|].
    intros Hno. exfalso. apply (Hno id tg). cbn [leaves]. apply list_elem_of_here.
  - cbn [invoke] in Hrun.
    apply bind_inv in Hrun as ([] & s1 & Hrun1 & Hrun2).
    destruct (IH1 _ _ _ Hrun1) as (es1 & He1 & Hall1 & Hl1).
    destruct (IH2 _ _ _ Hrun2) as (es2 & He2 & Hall2 & Hl2).
    exists (es1 ++ es2). split; [rewrite He2, He1; symmetry; apply app_assoc|].
    split; [apply Forall_app; split; assumption|].
    intros Hno. apply Forall_app. split.
    + apply Hl1. intros id tg Hin. apply (Hno id tg). cbn [leaves].
      apply elem_of_app. left. exact Hin.
    + apply Hl2. intros id tg Hin. apply (Hno id tg). cbn [leaves].
      apply elem_of_app. right. exact Hin.
Qed.
End Emits.

(** ** The node [createComponent] builds *)

Section NodeBuild.
Context {World : Type} (C : Collab World).
Implicit Types (s : state World) (h : heap World).
Import componentVNodeHooks.

(** Lines 230-284 up to the node (line 266), run: the heap it leaves,
    before the Weex branch. *)
Lemma run_createComponent_node_tail c props af d ctx ch tag h t D O :
  datas h !! d = Some D →
  options (fn_props h c) = Some O →
  ∃ l h' n dn,
    createComponent_node C c props af d ctx ch tag (h, t)
    = (if WEEX C then
         recyclable ← gets (isRecyclableComponent C l);
         if recyclable : bool then
           ext (EvRecycle l) (renderRecyclableComponentTemplate C l)
         else mret (VVNode l)
       else mret (VVNode l)) (h', t ++ [EvNewVNode l])
    ∧ vnodes h !! l = None
    ∧ vnodes h' !! l = Some n
    ∧ n = {| vtag :=
               VStr ("vue-component-" +:+ ToString C (cid (fn_props h c)) +:+
                     (if truthy (or_val (name O) tag)
                      then "-" +:+ ToString C (or_val (name O) tag)
                      else EmptyString));
             data := Some dn; vchildren := VUndef; text := VUndef;
             elm := VUndef; context := Some ctx;
             componentOptions :=
               Some {| Ctor := VFun c; propsData := props; listeners := on D;
                       tag := tag; children := ch |};
             componentInstance := None; asyncFactory := af |}
    ∧ datas h' !! dn = Some (node_bag O D)
    ∧ (if isTrue (abstract O)
       then datas h !! dn = None ∧ datas h' !! d = Some (set_on (nativeOn D) D)
       else dn = d)
    ∧ (∀ j, j ≠ l → vnodes h' !! j = vnodes h !! j)
    ∧ (∀ j, j ≠ d → j ≠ dn → datas h' !! j = datas h !! j)
    ∧ comps h' = comps h ∧ fns h' = fns h
    ∧ activeInstance h' = activeInstance h ∧ world h' = world h.
Proof.
  intros Hd HO. unfold createComponent_node.
  do 3 mstep. rewrite fn_props_with_datas, HO. mstep.
  set (h1 := with_datas (alter (λ d0, set_on (nativeOn d0) d0) d) h).
  assert (Hd1 : datas h1 !! d = Some (set_on (nativeOn D) D)).
  { unfold h1. cbn [datas with_datas]. rewrite lookup_alter_eq, Hd. reflexivity. }
  unfold node_bag. destruct (isTrue (abstract O)) eqn:Habs.
  - set (dn := fresh (dom (datas h1))).
    set (h2 := with_datas (<[dn := empty_data]>) h1).
    set (bag := if truthy (slot D) then set_slot (slot D) empty_data
                else empty_data).
    set (h3 := if truthy (slot D)
               then with_datas (alter (set_slot (slot D)) dn) h2 else h2).
    assert (Hne : dn ≠ d) by exact (fresh_data_ne _ _ _ Hd1).
    assert (Hfresh : datas h !! dn = None).
    { destruct (datas h !! dn) as [x|] eqn:Hx; [|reflexivity]. exfalso.
      apply (is_fresh (dom (datas h1))). fold dn. apply elem_of_dom.
      unfold h1. cbn [datas with_datas]. rewrite lookup_alter_ne by congruence.
      rewrite Hx. eauto. }
    assert (Hdn : datas h3 !! dn = Some bag).
    { unfold h3, bag, h2. destruct (truthy (slot D)); cbn [datas with_datas].
      - rewrite lookup_alter_eq, lookup_insert_eq. reflexivity.
      - apply lookup_insert_eq. }
    lazymatch goal with
    | |- ∃ _ _ _ _, (?m ≫= _) _ = _ ∧ _ =>
        assert (Hblock : m (h1, t) = Some (dn, (h3, t)))
    end.
    { do 2 mstep. fold dn h2. cbn [slot set_on].
      unfold h3. destruct (truthy (slot D)); reflexivity. }
    rewrite (run_bind_Some _ _ _ _ _ Hblock).
    do 2 mstep. rewrite fn_props_with_datas.
    replace (fn_props h3 c) with (fn_props h c)
      by (unfold h3; destruct (truthy (slot D)); reflexivity).
    rewrite HO. do 2 mstep.
    eexists _, _, _, dn. split; [reflexivity|].
    assert (Hvn : vnodes h3 = vnodes h)
      by (unfold h3; destruct (truthy (slot D)); reflexivity).
    cbn [vnodes datas comps fns activeInstance world with_vnodes with_datas].
    rewrite Hvn.
    split; [apply (not_elem_of_dom (D := gset loc)), is_fresh|].
    split; [apply lookup_insert_eq|].
    split; [reflexivity|].
    split; [rewrite lookup_alter_eq, Hdn; unfold bag;
            destruct (truthy (slot D)); reflexivity|].
    split; [split; [exact Hfresh|]|].
    { rewrite lookup_alter_ne by exact Hne.
      unfold h3, h2. destruct (truthy (slot D)); cbn [datas with_datas].
      - rewrite lookup_alter_ne, lookup_insert_ne by exact Hne. exact Hd1.
      - rewrite lookup_insert_ne by exact Hne. exact Hd1. }
    split; [intros j Hj; apply lookup_insert_ne; congruence|].
    split.
    { intros j Hjd Hjn. rewrite lookup_alter_ne by congruence.
      unfold h3, h2, h1. destruct (truthy (slot D)); cbn [datas with_datas].
      - rewrite lookup_alter_ne, lookup_insert_ne, lookup_alter_ne by congruence.
        reflexivity.
      - rewrite lookup_insert_ne, lookup_alter_ne by congruence. reflexivity. }
    unfold h3, h2, h1. destruct (truthy (slot D)); repeat split; reflexivity.
  - do 3 mstep. rewrite fn_props_with_datas.
    change (fn_props h1 c) with (fn_props h c). rewrite HO. do 2 mstep.
    eexists _, _, _, d. split; [reflexivity|].
    cbn [vnodes datas comps fns activeInstance world with_vnodes with_datas].
    split; [apply (not_elem_of_dom (D := gset loc)), is_fresh|].
    split; [apply lookup_insert_eq|].
    split; [reflexivity|].
    split; [rewrite lookup_alter_eq; fold (datas h1); rewrite Hd1; reflexivity|].
    split; [reflexivity|].
    split; [intros j Hj; apply lookup_insert_ne; congruence|].
    split; [intros j Hjd _; unfold h1; cbn [datas with_datas];
            rewrite !lookup_alter_ne by congruence; reflexivity|].
    repeat split; reflexivity.
Qed.

(** X14.  For a constructor that is not abstract the node is built on the
    caller's bag, which is changed in place: the new node (a node the
    heap did not have) refers to the very bag passed in; in that bag
    [on] now holds what [nativeOn] held, each of the four hook names
    holds what the install step leaves there (the default if the name
    was free or held the default, the hook that was there if it was
    tagged as a merge, the merge of the default and that hook
    otherwise), hooks under other names are kept, and every other field
    is as the caller left it.  The component listeners travel in
    [componentOptions.listeners].  No other node is touched, and of
    every other bag all fields but [hook] are as before; the hooks of
    other bags are not spoken of, since the install step writes
    into the object [data.hook] refers to, which another bag may
    share. *)
Theorem createComponent_node_in_place c props af d ctx ch tag h t D O :
  datas h !! d = Some D →
  options (fn_props h c) = Some O →
  isTrue (abstract O) = false →
  (WEEX C = false ∨ ∀ l h', isRecyclableComponent C l h' = false) →
  ∃ l h' n bag hooks,
    createComponent_node C c props af d ctx ch tag (h, t)
    = Some (VVNode l, (h', t ++ [EvNewVNode l]))
    ∧ vnodes h !! l = None
    ∧ vnodes h' !! l = Some n
    ∧ data n = Some d
    ∧ context n = Some ctx
    ∧ componentInstance n = None
    ∧ componentOptions n
      = Some {| Ctor := VFun c; propsData := props; listeners := on D;
                tag := tag; children := ch |}
    ∧ datas h' !! d = Some bag
    ∧ on bag = nativeOn D ∧ nativeOn bag = nativeOn D
    ∧ hook bag = Some hooks
    ∧ (∀ k, hooks !! key_name k
            = Some (installed k (default ∅ (hook D) !! key_name k)))
    ∧ (∀ x : string, (∀ k, x ≠ key_name k) →
         hooks !! x = default ∅ (hook D) !! x)
    ∧ attrs bag = attrs D ∧ slot bag = slot D ∧ keepAlive bag = keepAlive D
    ∧ model bag = model D ∧ inlineTemplate bag = inlineTemplate D
    ∧ rest bag = rest D
    ∧ (∀ j, j ≠ l → vnodes h' !! j = vnodes h !! j)
    ∧ (∀ j, j ≠ d →
         set_hook None <$> datas h' !! j = set_hook None <$> datas h !! j).
Proof.
  intros Hd HO Habs Hweex.
  destruct (run_createComponent_node_tail c props af d ctx ch tag h t D O Hd HO)
    as (l & h' & n & dn & Hrun & Hfresh & Hn & Hnode & Hbag & Hdn & Hvn & Hdt & _).
  rewrite Habs in Hdn. subst dn.
  rewrite run_not_recyclable in Hrun by exact Hweex.
  unfold node_bag in Hbag. rewrite Habs in Hbag.
  eexists l, h', n, _, _. split; [exact Hrun|].
  split; [exact Hfresh|]. split; [exact Hn|].
  rewrite Hnode. cbn [data context componentInstance componentOptions].
  do 4 (split; [reflexivity|]).
  split; [exact Hbag|].
  cbn [on nativeOn hook attrs slot keepAlive model inlineTemplate rest
       set_hook set_on].
  do 3 (split; [reflexivity|]).
  split; [intros k; apply install_loop_key|].
  split; [intros x Hx; apply install_loop_other, Hx|].
  do 6 (split; [reflexivity|]).
  split; [exact Hvn|]. intros j Hj. rewrite (Hdt j Hj Hj). reflexivity.
Qed.

(** X15.  Under Weex the node is built all the same, and is then shown to
    [isRecyclableComponent].  If that answers no, the node is returned.
    If it answers yes, the node goes to
    [renderRecyclableComponentTemplate] and what that returns is the
    result of [createComponent], in place of the node; if it throws,
    so does [createComponent]. *)
Theorem createComponent_node_weex c props af d ctx ch tag h t D O :
  datas h !! d = Some D →
  options (fn_props h c) = Some O →
  WEEX C = true →
  ∃ l h' n,
    vnodes h !! l = None
    ∧ vnodes h' !! l = Some n
    ∧ componentOptions n
      = Some {| Ctor := VFun c; propsData := props; listeners := on D;
                tag := tag; children := ch |}
    ∧ (isRecyclableComponent C l h' = false →
       createComponent_node C c props af d ctx ch tag (h, t)
       = Some (VVNode l, (h', t ++ [EvNewVNode l])))
    ∧ (isRecyclableComponent C l h' = true →
       (∀ r h'',
          renderRecyclableComponentTemplate C l h' = Some (r, h'') →
          createComponent_node C c props af d ctx ch tag (h, t)
          = Some (r, (h'', t ++ [EvNewVNode l; EvRecycle l])))
       ∧ (renderRecyclableComponentTemplate C l h' = None →
          createComponent_node C c props af d ctx ch tag (h, t) = None)).
Proof.
  intros Hd HO Hweex.
  destruct (run_createComponent_node_tail c props af d ctx ch tag h t D O Hd HO)
    as (l & h' & n & dn & Hrun & Hfresh & Hn & Hnode & _).
  rewrite Hweex in Hrun. rewrite run_bind in Hrun. unfold gets in Hrun.
  cbn [fst snd] in Hrun.
  exists l, h', n. split; [exact Hfresh|]. split; [exact Hn|].
  split; [rewrite Hnode; reflexivity|].
  split.
  - intros Hno. rewrite Hno in Hrun. exact Hrun.
  - intros Hyes. rewrite Hyes in Hrun. split.
    + intros r h'' Hrender. rewrite Hrun.
      rewrite (run_ext _ _ _ _ _ _ Hrender). rewrite <- app_assoc. reflexivity.
    + intros Hrender. rewrite Hrun. unfold ext. cbn [fst]. rewrite Hrender.
      reflexivity.
Qed.

(** X16.  Building a node and initialising it compose: [init] on the node
    [createComponent] has just built constructs the very constructor the
    node was built for, with that node as [_parentVnode] and the active
    instance as [parent], and mounts the new instance.  The render
    functions of an inline template are passed on for an ordinary
    constructor and are lost for an abstract one, whose node has a new
    bag. *)
Theorem build_then_init c props af d ctx ch tag hydrating h t D O :
  datas h !! d = Some D →
  options (fn_props h c) = Some O →
  (WEEX C = false ∨ ∀ l h', isRecyclableComponent C l h' = false) →
  ∃ l h',
    createComponent_node C c props af d ctx ch tag (h, t)
    = Some (VVNode l, (h', t ++ [EvNewVNode l]))
    ∧ let template := if isTrue (abstract O) then None else inlineTemplate D in
      let options :=
        {| _isComponent := true; _parentVnode := l; parent := activeInstance h;
           o_render := from_option render VUndef template;
           o_staticRenderFns := from_option staticRenderFns VUndef template |} in
      ∀ child h1 v1 h2,
        construct C (VFun c) options h' = Some (child, h1) →
        vnodes h1 !! l = Some v1 →
        let el := if truthy hydrating then elm v1 else VUndef in
        vm_mount C child el hydrating
          (with_vnodes (alter (set_componentInstance (Some child)) l) h1)
        = Some (tt, h2) →
        init C l hydrating (h', t ++ [EvNewVNode l])
        = Some (tt, (h2, t ++ [EvNewVNode l; EvNew (VFun c) options;
                               EvMount child el hydrating])).
Proof.
  intros Hd HO Hweex.
  destruct (run_createComponent_node_tail c props af d ctx ch tag h t D O Hd HO)
    as (l & h' & n & dn & Hrun & Hfresh & Hn & Hnode & Hbag & Hdn & Hvn & Hdt
        & _ & _ & Hact & _).
  rewrite run_not_recyclable in Hrun by exact Hweex.
  exists l, h'. split; [exact Hrun|].
  intros template options child h1 v1 h2 Hnew Hv1 el Hmount.
  assert (Htpl : inlineTemplate (node_bag O D) = template).
  { unfold node_bag, template. destruct (isTrue (abstract O)); [|reflexivity].
    destruct (truthy (slot D)); reflexivity. }
  assert (Hnot : not_reusable h' l).
  { exists n, dn, (node_bag O D). split; [exact Hn|].
    split; [rewrite Hnode; reflexivity|]. split; [exact Hbag|].
    rewrite Hnode. exact I. }
  assert (Hdl : data n = Some dn) by (rewrite Hnode; reflexivity).
  set (co := {| Ctor := VFun c; propsData := props; listeners := on D;
                tag := tag; children := ch |}).
  assert (Hco : componentOptions n = Some co) by (rewrite Hnode; reflexivity).
  pose proof (run_init_create C l hydrating n dn (node_bag O D) co
                h' (t ++ [EvNewVNode l]) child h1 h2 Hn Hdl Hbag Hco Hnot)
    as Hinit.
  cbv zeta in Hinit. rewrite Htpl, Hact in Hinit. cbn [Ctor co] in Hinit.
  rewrite (Hinit Hnew v1 Hv1 Hmount). rewrite <- app_assoc. reflexivity.
Qed.

(** X17.  A plain definition object goes through [extend] once, on the
    base constructor of the context, and the constructor [extend]
    returns takes the normal path with no async factory.  If [extend]
    throws, so does [createComponent].  What [extend] returns is not
    converted again: a result that is no function is an invalid
    definition, silently so in production. *)
Theorem createComponent_object Ctor data ctx ch tag vm h t :
  isObject Ctor = true →
  comps h !! ctx = Some vm →
  (∀ f h1,
     extend C (_base vm) Ctor h = Some (VFun f, h1) →
     isUndef (cid (fn_props h1 f)) = false →
     createComponent C Ctor data ctx ch tag (h, t)
     = createComponent_normal C f VUndef data ctx ch tag
         (h1, t ++ [EvExtend (_base vm) Ctor]))
  ∧ (extend C (_base vm) Ctor h = None →
     createComponent C Ctor data ctx ch tag (h, t) = None)
  ∧ (∀ r h1,
       extend C (_base vm) Ctor h = Some (r, h1) →
       is_function r = false →
       NODE_ENV C = "production" →
       createComponent C Ctor data ctx ch tag (h, t)
       = Some (VUndef, (h1, t ++ [EvExtend (_base vm) Ctor]))).
Proof.
  intros Hobj Hvm.
  assert (Hund : isUndef Ctor = false) by (destruct Ctor; try discriminate; reflexivity).
  assert (Hhead : ∀ k : val → M World val,
    (Ctor' ← (if isObject Ctor
              then ext (EvExtend (_base vm) Ctor) (extend C (_base vm) Ctor)
              else mret Ctor); k Ctor') (h, t)
    = match extend C (_base vm) Ctor h with
      | Some (r, h1) => k r (h1, t ++ [EvExtend (_base vm) Ctor])
      | None => None
      end).
  { intros k. rewrite Hobj, run_bind. unfold ext. cbn [fst snd].
    destruct (extend C (_base vm) Ctor h) as [[r h1]|]; reflexivity. }
  unfold createComponent. rewrite Hund.
  rewrite (run_bind_Some _ _ _ _ _ (run_get_comp _ _ _ _ Hvm)). cbv zeta.
  rewrite Hhead.
  split; [|split].
  - intros f h1 Hext Hcid. rewrite Hext.
    rewrite (run_bind_Some _ _ _ _ _ (run_get_fn _ _ _)).
    rewrite Hcid. reflexivity.
  - intros Hext. rewrite Hext. reflexivity.
  - intros r h1 Hext Hfn Hprod. rewrite Hext.
    destruct r; try discriminate; rewrite Hprod; reflexivity.
Qed.

(** X18.  On the normal path a bag with a [model] is transformed before
    the props are extracted, so [extractPropsFromVNodeData] sees the
    input among the attributes; a bag without one is left alone.  Then a
    constructor marked functional is handed to
    [createFunctionalComponent] and its result returned as it is: no
    listener is separated, no hook installed and no node built here.
    Any other constructor continues to the node. *)
Theorem createComponent_normal_path c af d ctx ch tag h t h1 D :
  resolveConstructorOptions C c h = Some (tt, h1) →
  datas h1 !! d = Some D →
  (model D ≠ None → options (fn_props h1 c) ≠ None) →
  ∃ h1',
    match model D with
    | Some m =>
        transformModel (options (fn_props h1 c)) d (h1, t)
        = Some (tt, (h1', t))
        ∧ (∃ D' a p, datas h1' !! d = Some D' ∧ attrs D' = Some a
                     ∧ a !! p = Some (value m))
    | None => h1' = h1
    end
    ∧ ∀ props h2 O,
        extractPropsFromVNodeData C d c tag h1' = Some (props, h2) →
        options (fn_props h2 c) = Some O →
        (isTrue (functional O) = false →
         createComponent_normal C c af (Some d) ctx ch tag (h, t)
         = createComponent_node C c props af d ctx ch tag
             (h2, t ++ [EvResolveConstructorOptions c; EvExtractProps d c tag]))
        ∧ (isTrue (functional O) = true →
           ∀ r h3,
             createFunctionalComponent C c props d ctx ch h2 = Some (r, h3) →
             createComponent_normal C c af (Some d) ctx ch tag (h, t)
             = Some (r, (h3, t ++ [EvResolveConstructorOptions c;
                                   EvExtractProps d c tag;
                                   EvFunctional c props d ctx ch]))).
Proof.
  intros Hres Hd Hopts.
  set (t1 := t ++ [EvResolveConstructorOptions c]).
  assert (Hmodel : ∃ h1',
    (match model D with
     | Some _ => fo ← get_fn c; transformModel (options fo) d
     | None => mret tt
     end) (h1, t1) = Some (tt, (h1', t1))
    ∧ match model D with
      | Some m =>
          transformModel (options (fn_props h1 c)) d (h1, t)
          = Some (tt, (h1', t))
          ∧ (∃ D' a p, datas h1' !! d = Some D' ∧ attrs D' = Some a
                       ∧ a !! p = Some (value m))
      | None => h1' = h1
      end).
  { destruct (model D) as [m|] eqn:Hm.
    - destruct (options (fn_props h1 c)) as [O1|] eqn:HO1;
        [|exfalso; apply Hopts; [discriminate|reflexivity]].
      eexists. split.
      + rewrite (run_bind_Some _ _ _ _ _ (run_get_fn _ _ _)). rewrite HO1.
        apply (run_transformModel_bag O1 d D m h1 t1 Hd Hm).
      + split; [apply (run_transformModel_bag O1 d D m h1 t Hd Hm)|].
        eexists _, _, _. cbn [datas with_datas].
        split; [rewrite lookup_alter_eq, Hd; reflexivity|].
        split; [reflexivity|]. apply lookup_insert_eq.
    - exists h1. split; reflexivity. }
  destruct Hmodel as (h1' & Hrun1 & Hspec).
  exists h1'. split; [exact Hspec|].
  intros props h2 O Hext HO.
  assert (Hprefix :
    createComponent_normal C c af (Some d) ctx ch tag (h, t)
    = (if isTrue (functional O) then
         ext (EvFunctional c props d ctx ch)
             (createFunctionalComponent C c props d ctx ch)
       else createComponent_node C c props af d ctx ch tag)
        (h2, t ++ [EvResolveConstructorOptions c; EvExtractProps d c tag])).
  { unfold createComponent_normal.
    rewrite (run_bind_Some _ _ (h, t) d (h, t) eq_refl).
    rewrite (run_bind_Some _ _ _ _ _ (run_ext _ _ _ _ _ _ Hres)). fold t1.
    rewrite (run_bind_Some _ _ _ _ _ (run_get_data _ _ _ _ Hd)).
    rewrite (run_bind_Some _ _ _ _ _ Hrun1).
    rewrite (run_bind_Some _ _ _ _ _ (run_ext _ _ _ _ _ _ Hext)).
    rewrite (run_bind_Some _ _ _ _ _ (run_get_fn _ _ _)).
    rewrite HO. rewrite (run_bind_Some _ _ _ O _ eq_refl).
    unfold t1. rewrite <- app_assoc. reflexivity. }
  split.
  - intros Hfun. rewrite Hprefix, Hfun. reflexivity.
  - intros Hfun r h3 Hcall. rewrite Hprefix, Hfun.
    rewrite (run_ext _ _ _ _ _ _ Hcall). rewrite <- app_assoc. reflexivity.
Qed.
End NodeBuild.

(** ** The properties above, on concrete heaps *)

Lemma init_creates_and_mounts_witness :
  let C := demo "development" in
  ∃ h2,
    componentVNodeHooks.init C 11 VUndef (demo_child_heap, [])
    = Some (tt,
            (h2, [EvNew (VFun 1)
                    {| _isComponent := true; _parentVnode := 11;
                       parent := VInst 0; o_render := VUndef;
                       o_staticRenderFns := VUndef |};
                  EvMount 2 VUndef VUndef]))
    ∧ componentInstance <$> vnodes h2 !! 11 = Some (Some 2).
Proof.
  intros C. eexists. split.
  - eapply (init_creates_and_mounts C 11 VUndef _ 20 _ child_options
              demo_child_heap [] 2 _ _
              ltac:(vm_compute; reflexivity) ltac:(reflexivity)
              ltac:(vm_compute; reflexivity) ltac:(reflexivity));
      [ | vm_compute; reflexivity | vm_compute; reflexivity
        | vm_compute; reflexivity ].
    eexists _, 20, _. split; [vm_compute; reflexivity|].
    split; [reflexivity|]. split; [vm_compute; reflexivity|]. exact I.
  - vm_compute. reflexivity.
Defined.

Lemma destroy_destroyed_noop_witness :
  let C := demo "development" in
  let h := with_comps (alter (set_isDestroyed true) 1) demo_child_heap in
  componentVNodeHooks.destroy C 10 (h, [EvDestroy 1]) = Some (tt, (h, [EvDestroy 1])).
Proof.
  intros C h.
  exact (destroy_destroyed_noop C 10 _ 1 _ (h, [EvDestroy 1])
           ltac:(vm_compute; reflexivity) ltac:(reflexivity)
           ltac:(vm_compute; reflexivity) ltac:(reflexivity)).
Defined.

Lemma destroy_tears_down_once_witness :
  let C := demo "development" in
  let h := with_datas (<[20 := empty_data]>) demo_child_heap in
  let h1 := with_comps (alter (set_isDestroyed true) 1) h in
  componentVNodeHooks.destroy C 10 (h, []) = Some (tt, (h1, [EvDestroy 1]))
  ∧ (componentVNodeHooks.destroy C 10;; componentVNodeHooks.destroy C 10) (h, [])
    = Some (tt, (h1, [EvDestroy 1])).
Proof.
  intros C h h1.
  destruct (destroy_tears_down_once C 10 _ 20 empty_data 1 _ h [] h1
              ltac:(vm_compute; reflexivity) ltac:(reflexivity)
              ltac:(reflexivity) ltac:(vm_compute; reflexivity)
              ltac:(reflexivity) ltac:(vm_compute; reflexivity)
              ltac:(reflexivity) ltac:(reflexivity))
    as [Hfirst Htwice].
  split; [exact Hfirst|]. apply Htwice.
  - eexists. split; [vm_compute; reflexivity|reflexivity].
  - eexists. split; [vm_compute; reflexivity|reflexivity].
Defined.

Lemma insert_mounted_routing_witness :
  let C := demo "development" in
  let h := with_comps (alter (set_isMounted true) 1) demo_child_heap in
  componentVNodeHooks.insert C 10 (h, [])
  = Some (tt, (with_world (λ w, {| queue := queue w ++ [1];
                                   resolved := resolved w |}) h,
               [EvQueueActivated 1])).
Proof.
  intros C h.
  destruct (insert_mounted_routing C 10 _ 20 _ 1 _ h []
              ltac:(vm_compute; reflexivity) ltac:(reflexivity)
              ltac:(reflexivity) ltac:(vm_compute; reflexivity)
              ltac:(vm_compute; reflexivity) ltac:(reflexivity))
    as [_ Hkept].
  rewrite (Hkept 0 {| _isMounted := true; _isDestroyed := false; _base := VFun 0 |});
    [reflexivity | reflexivity | reflexivity | vm_compute; reflexivity].
Defined.

Lemma insert_first_mount_witness :
  let C := demo "development" in
  let h1 := with_comps (alter (set_isMounted true) 1) demo_child_heap in
  mounted h1 1 true
  ∧ componentVNodeHooks.insert C 10 (demo_child_heap, [])
    = componentVNodeHooks.insert C 10 (h1, [EvCallHook 1 "mounted"]).
Proof.
  intros C h1.
  assert (Hm : mounted h1 1 true)
    by (eexists; split; [vm_compute; reflexivity|reflexivity]).
  exact (insert_first_mount C 10 _ 1 _ demo_child_heap [] h1
           ltac:(vm_compute; reflexivity) ltac:(reflexivity)
           ltac:(vm_compute; reflexivity) ltac:(reflexivity)
           ltac:(reflexivity) ltac:(vm_compute; reflexivity) Hm).
Defined.

Lemma hooks_throw_on_broken_nodes_witness :
  let C := demo "development" in
  let s := (demo_child_heap, []) in
  componentVNodeHooks.insert C 11 s = None
  ∧ componentVNodeHooks.destroy C 11 s = None
  ∧ call_default C Init (VNum 5) VUndef s = None
  ∧ call_default C Prepatch VNull (VVNode 11) s = None
  ∧ call_default C Prepatch (VVNode 10) (VNum 5) s = None
  ∧ call_default C Prepatch (VNum 5) (VVNode 11) s
    = Some (tt, (with_vnodes (alter (set_componentInstance None) 11)
                   demo_child_heap,
                 [EvUpdateChild VUndef None None 11 VUndef])).
Proof.
  intros C s.
  destruct (hooks_throw_on_broken_nodes C 11 _ s ltac:(vm_compute; reflexivity))
    as (Hnone & _ & _ & Hcall & Hnull & Hnew & Hforeign).
  destruct (Hnone eq_refl) as [Hins Hdes].
  split; [exact Hins|]. split; [exact Hdes|].
  split; [apply Hcall; [intros l|]; discriminate|].
  split; [apply Hnull; reflexivity|].
  split; [apply Hnew; intros l; discriminate|].
  apply (Hforeign (VNum 5) child_options);
    [intros l; discriminate | reflexivity | reflexivity | reflexivity].
Defined.

Lemma installComponentHooks_effect_witness :
  ∃ h' hooks',
    installComponentHooks 20 (demo_child_heap, []) = Some (tt, (h', []))
    ∧ hook <$> datas h' !! 20 = Some (Some hooks')
    ∧ hooks' !! "init" = Some (Default Init)
    ∧ hooks' !! "destroy" = Some (Default Destroy)
    ∧ vnodes h' = vnodes demo_child_heap.
Proof.
  destruct (installComponentHooks_effect 20 _ demo_child_heap []
              ltac:(vm_compute; reflexivity))
    as (h' & hooks' & Hrun & Hbag & _ & Hvn & _ & _ & _ & _ & Hkeys & _).
  exists h', hooks'. split; [exact Hrun|].
  split; [exact (f_equal (fmap hook) Hbag)|].
  split; [exact (Hkeys Init)|]. split; [exact (Hkeys Destroy)|exact Hvn].
Defined.

Lemma transformModel_only_adds_witness :
  ∃ h' D' attrs' on' entry,
    transformModel (Some plain_options) 20
      (demo_model_heap (Some (Single (VFun 9))), [])
    = Some (tt, (h', []))
    ∧ datas h' !! 20 = Some D'
    ∧ attrs D' = Some attrs' ∧ on D' = Some on'
    ∧ attrs' !! "value" = Some (VNum 5)
    ∧ on' !! "input" = Some entry
    ∧ VFun 7 ∈ listener_fns entry
    ∧ VFun 9 ∈ listener_fns entry.
Proof.
  destruct (transformModel_only_adds (World := DemoWorld) plain_options 20 _
              {| value := VNum 5; callback := VFun 7 |}
              (demo_model_heap (Some (Single (VFun 9)))) []
              ltac:(vm_compute; reflexivity) eq_refl)
    as (h' & D' & attrs' & on' & entry & Hrun & Hd & Ha & Ho & Hv & _ & He & Hin
        & Hkeep & _).
  exists h', D', attrs', on', entry.
  split; [exact Hrun|]. split; [exact Hd|]. split; [exact Ha|].
  split; [exact Ho|]. split; [exact Hv|]. split; [exact He|].
  split; [exact Hin|].
  apply (Hkeep (Single (VFun 9))); [vm_compute; reflexivity | reflexivity|].
  apply list_elem_of_here.
Defined.

Lemma createComponent_only_builds_witness :
  let C := demo "development" in
  ∃ r s',
    createComponent C (VFun 1) (Some 20) 0 VUndef (VStr "child")
      (demo_model_heap None, [])
    = Some (r, s')
    ∧ ∃ es, s'.2 = [] ++ es ∧ Forall (λ e, builder_effect e = true) es.
Proof.
  intros C.
  destruct (createComponent C (VFun 1) (Some 20) 0 VUndef (VStr "child")
              (demo_model_heap None, [])) as [[r s']|] eqn:Hrun;
    [|vm_compute in Hrun; discriminate].
  exists r, s'. split; [reflexivity|].
  exact (createComponent_only_builds C _ _ _ _ _ _ _ _ Hrun).
Defined.

Lemma hooks_only_lifecycle_witness :
  let C := demo "development" in
  ∃ r s',
    invoke C (Merged (Default Insert) (User 3 false)) (VVNode 10) VUndef
      (demo_child_heap, [])
    = Some (r, s')
    ∧ ∃ es, s'.2 = [] ++ es
            ∧ Forall (λ e, lifecycle_effect e || user_effect e = true) es.
Proof.
  intros C.
  destruct (invoke C (Merged (Default Insert) (User 3 false)) (VVNode 10) VUndef
              (demo_child_heap, [])) as [[r s']|] eqn:Hrun;
    [|vm_compute in Hrun; discriminate].
  exists r, s'. split; [reflexivity|].
  destruct (hooks_only_lifecycle C _ _ _ _ _ _ Hrun) as (es & He & Hall & _).
  exists es. split; [exact He|exact Hall].
Defined.

Lemma createComponent_node_in_place_witness :
  let C := demo "development" in
  ∃ l h' n bag,
    createComponent_node C 0 None VUndef 20 0 VUndef (VStr "child")
      (demo_abstract_heap, [])
    = Some (VVNode l, (h', [EvNewVNode l]))
    ∧ vnodes h' !! l = Some n
    ∧ data n = Some 20
    ∧ listeners <$> componentOptions n
      = Some (Some {[ "click" := Single (VFun 7) ]})
    ∧ datas h' !! 20 = Some bag
    ∧ on bag = Some {[ "focus" := Single (VFun 8) ]}
    ∧ attrs bag = Some {[ "id" := VStr "x" ]}
    ∧ slot bag = VStr "default".
Proof.
  intros C.
  destruct (createComponent_node_in_place C 0 None VUndef 20 0 VUndef
              (VStr "child") demo_abstract_heap [] _ plain_options
              ltac:(vm_compute; reflexivity) ltac:(vm_compute; reflexivity)
              eq_refl (or_introl eq_refl))
    as (l & h' & n & bag & hooks & Hrun & _ & Hn & Hdata & _ & _ & Hco & Hbag
        & Hon & _ & _ & _ & _ & Hattrs & Hslot & _).
  exists l, h', n, bag. split; [exact Hrun|]. split; [exact Hn|].
  split; [exact Hdata|]. split; [rewrite Hco; reflexivity|].
  split; [exact Hbag|]. split; [exact Hon|]. split; [exact Hattrs|exact Hslot].
Defined.

Lemma createComponent_node_weex_witness :
  ∃ l h' n,
    vnodes h' !! l = Some n
    ∧ createComponent_node demo_weex 0 None VUndef 20 0 VUndef (VStr "child")
        (demo_abstract_heap, [])
      = Some (VStr "recycled", (h', [EvNewVNode l; EvRecycle l])).
Proof.
  destruct (createComponent_node_weex demo_weex 0 None VUndef 20 0 VUndef
              (VStr "child") demo_abstract_heap [] _ plain_options
              ltac:(vm_compute; reflexivity) ltac:(vm_compute; reflexivity)
              eq_refl)
    as (l & h' & n & _ & Hn & _ & _ & Hyes).
  destruct (Hyes eq_refl) as [Hret _].
  exists l, h', n. split; [exact Hn|].
  exact (Hret (VStr "recycled") h' eq_refl).
Defined.

Lemma build_then_init_witness :
  let C := demo "development" in
  ∃ l h' h2 opts,
    createComponent_node C 0 None VUndef 20 0 VUndef (VStr "child")
      (demo_abstract_heap, [])
    = Some (VVNode l, (h', [EvNewVNode l]))
    ∧ componentVNodeHooks.init C l VUndef (h', [EvNewVNode l])
      = Some (tt, (h2, [EvNewVNode l; EvNew (VFun 0) opts; EvMount 1 VUndef VUndef]))
    ∧ _parentVnode opts = l
    ∧ parent opts = VInst 0.
Proof.
  intros C.
  destruct (build_then_init C 0 None VUndef 20 0 VUndef (VStr "child") VUndef
              demo_abstract_heap [] _ plain_options
              ltac:(vm_compute; reflexivity) ltac:(vm_compute; reflexivity)
              (or_introl eq_refl))
    as (l & h' & Hrun & Hinit).
  pose proof Hrun as Heq. vm_compute in Heq. injection Heq as Hl Hh.
  subst l h'. cbv zeta in Hinit.
  epose proof (Hinit 1 _ _ _ ltac:(vm_compute; reflexivity)
                 ltac:(vm_compute; reflexivity) ltac:(vm_compute; reflexivity))
    as Hi.
  eexists _, _, _, _. split; [exact Hrun|]. split; [exact Hi|].
  split; reflexivity.
Defined.

Lemma createComponent_object_witness :
  let C := demo "development" in
  createComponent C (VObj 5) None 0 VUndef (VStr "child") (demo_heap, [])
  = createComponent_normal C 1 VUndef None 0 VUndef (VStr "child")
      (with_fns (<[1 := {| cid := VNum 1; options := Some plain_options |}]>)
         demo_heap,
       [EvExtend (VFun 0) (VObj 5)]).
Proof.
  intros C.
  destruct (createComponent_object C (VObj 5) None 0 VUndef (VStr "child")
              {| _isMounted := true; _isDestroyed := false; _base := VFun 0 |}
              demo_heap [] eq_refl ltac:(vm_compute; reflexivity))
    as (Hfun & _ & _).
  apply Hfun; vm_compute; reflexivity.
Defined.

Lemma createComponent_normal_path_witness :
  let C := demo "development" in
  ∃ h1',
    transformModel (Some plain_options) 20 (demo_model_heap None, [])
    = Some (tt, (h1', []))
    ∧ createComponent_normal C 1 VUndef (Some 20) 0 VUndef (VStr "child")
        (demo_model_heap None, [])
      = createComponent_node C 1 (Some {[ "value" := VNum 5 ]}) VUndef 20 0
          VUndef (VStr "child")
          (h1', [EvResolveConstructorOptions 1; EvExtractProps 20 1 (VStr "child")]).
Proof.
  intros C.
  destruct (createComponent_normal_path C 1 VUndef 20 0 VUndef (VStr "child")
              (demo_model_heap None) [] (demo_model_heap None) _
              eq_refl ltac:(vm_compute; reflexivity)
              ltac:(intros _; vm_compute; discriminate))
    as (h1' & Hmodel & Hrest).
  cbn [model] in Hmodel. destruct Hmodel as [Htm _].
  exists h1'. split; [exact Htm|].
  assert (Hh : h1' = with_datas
                       (alter (λ d0,
                          set_on (Some {[ "input" := Single (VFun 7) ]})
                            (set_attrs (Some {[ "value" := VNum 5 ]}) d0)) 20)
                       (demo_model_heap None)).
  { vm_compute in Htm. injection Htm as <-. vm_compute. reflexivity. }
  destruct (Hrest (Some {[ "value" := VNum 5 ]}) h1' plain_options) as [Hnode _].
  - rewrite Hh. vm_compute. reflexivity.
  - rewrite Hh. vm_compute. reflexivity.
  - apply Hnode. reflexivity.
Defined.
